(** * Browser-History plugin: a shallow embedding and its verified properties

    The development follows the three source files of the plugin:
    - [browsers.py]: the browser adapters ([Base], [Chrome], [Firefox], ...)
      and [HistoryItem];
    - [favicon.py]: the disk-backed [FaviconCache];
    - [main.py]: the [BrowserHistory] front end.

    Python objects with mutable attributes are threaded explicitly through a
    state-and-exception monad; the file system, the network and the log are
    components of a [World] record.  Library functions whose behaviour is
    fixed by tables outside the repository (Unicode white space and case
    mapping, [urllib.parse.urlparse], the local time zone) are fields of the
    [Platform] class, so every theorem holds for each implementation of
    them. *)

From Stdlib Require Import List String Ascii ZArith QArith Bool Lia.
From Stdlib Require Import DecimalString Qround Sorted Permutation.
Import ListNotations.

Set Implicit Arguments.

Local Open Scope string_scope.
Local Open Scope list_scope.

(* ===================================================================== *)
(** * Python exceptions and results                                       *)
(* ===================================================================== *)

Module Py.

(** The exception classes the plugin can meet. *)
Inductive exc_class : Type :=
| TypeError
| ValueError
| AttributeError
| OSError
| FileNotFoundError
| FileExistsError
| PermissionError
| IsADirectoryError
| SameFileError
| URLError
| SqliteError.

Definition exc_class_eqb (a b : exc_class) : bool :=
  match a, b with
  | TypeError, TypeError | ValueError, ValueError
  | AttributeError, AttributeError | OSError, OSError
  | FileNotFoundError, FileNotFoundError | FileExistsError, FileExistsError
  | PermissionError, PermissionError | IsADirectoryError, IsADirectoryError
  | SameFileError, SameFileError | URLError, URLError
  | SqliteError, SqliteError => true
  | _, _ => false
  end.

(** [issubclass a b]: the part of Python's exception hierarchy in use.
    [urllib.error.URLError] and [shutil.SameFileError] derive from
    [OSError]; [IOError] is an alias of [OSError]. *)
Definition issubclass (a b : exc_class) : bool :=
  exc_class_eqb a b ||
  match b, a with
  | OSError, (FileNotFoundError | FileExistsError | PermissionError
             | IsADirectoryError | SameFileError | URLError) => true
  | _, _ => false
  end.

Record exc : Type := mkExc { exc_type : exc_class; exc_msg : string }.

(** [except (c1, c2, ...)]: does the clause catch [e]? *)
Definition caught_by (classes : list exc_class) (e : exc) : bool :=
  existsb (issubclass (exc_type e)) classes.

Inductive result (A : Type) : Type :=
| Return (a : A)
| Raise (e : exc).

Arguments Return {A} a.
Arguments Raise {A} e.

(** The values that reach [datetime(...)] in [HistoryItem.timestamp]. *)
Inductive value : Type :=
| Int (z : Z)
| Float (q : Q)
| Str (s : string).

End Py.

(* ===================================================================== *)
(** * State and exception monad                                           *)
(* ===================================================================== *)

(** A computation over a state [S] that returns or raises.  The state
    survives a raise, as the effects of a Python statement do. *)
Definition M (S A : Type) : Type := S -> Py.result A * S.

Definition ret {S A} (a : A) : M S A := fun s => (Py.Return a, s).

Definition bind {S A B} (c : M S A) (k : A -> M S B) : M S B :=
  fun s =>
    match c s with
    | (Py.Return a, s') => k a s'
    | (Py.Raise e, s') => (Py.Raise e, s')
    end.

Definition raise {S A} (e : Py.exc) : M S A := fun s => (Py.Raise e, s).

(** A library call that returns or raises without touching the state. *)
Definition call {S A} (r : Py.result A) : M S A := fun s => (r, s).

Definition gets {S A} (f : S -> A) : M S A := fun s => (Py.Return (f s), s).

Definition modify {S} (f : S -> S) : M S unit := fun s => (Py.Return tt, f s).

(** [try: c  except classes as e: handler e] *)
Definition try_except {S A} (c : M S A) (classes : list Py.exc_class)
    (handler : Py.exc -> M S A) : M S A :=
  fun s =>
    match c s with
    | (Py.Return a, s') => (Py.Return a, s')
    | (Py.Raise e, s') =>
        if Py.caught_by classes e then handler e s' else (Py.Raise e, s')
    end.

(** [try: c  finally: fin] *)
Definition try_finally {S A} (c : M S A) (fin : M S unit) : M S A :=
  fun s =>
    match c s with
    | (r, s') =>
        match fin s' with
        | (Py.Return _, s'') => (r, s'')
        | (Py.Raise e, s'') => (Py.Raise e, s'')
        end
    end.

(** [for x in l: body x] *)
Fixpoint for_each {S A} (l : list A) (body : A -> M S unit) : M S unit :=
  match l with
  | [] => ret tt
  | x :: l' => bind (body x) (fun _ => for_each l' body)
  end.

Declare Scope py_scope.
Delimit Scope py_scope with py.
Notation "x <- c ;; k" := (bind c (fun x => k))
  (at level 100, c at next level, right associativity) : py_scope.
Notation "c ;; k" := (bind c (fun _ => k))
  (at level 100, right associativity) : py_scope.
Local Open Scope py_scope.

(* ===================================================================== *)
(** * The platform: library tables outside the repository                 *)
(* ===================================================================== *)

(** [urllib.parse.urlparse] yields (among others) [netloc] and [path]. *)
Record ParseResult : Type := mkParseResult { netloc : string; path : string }.

(** Calendar value of [datetime.datetime]. *)
Record datetime : Type := mkDatetime {
  year : Z; month : Z; day : Z;
  hour : Z; minute : Z; second : Z; microsecond : Z
}.

Class Platform : Type := {
  (** [str.isspace] on one character: decides what [str.strip] removes. *)
  isspace : ascii -> bool;
  (** [str.lower]. *)
  lower : string -> string;
  (** [urllib.parse.urlparse]; [None] when it raises, which on a string
      it does with [ValueError] only. *)
  urlparse : string -> option ParseResult;
  (** [datetime.fromtimestamp]: seconds since the Unix epoch to local
      calendar time; it raises outside the platform's range. *)
  fromtimestamp : Q -> Py.result datetime
}.

(* ===================================================================== *)
(** * [str] operations                                                    *)
(* ===================================================================== *)

Module Str.

(** Truth value of a string: [not s] is [True] exactly for [""]. *)
Definition truthy (s : string) : bool :=
  match s with
  | EmptyString => false
  | String _ _ => true
  end.

(** [needle in hay] *)
Fixpoint contains (needle hay : string) : bool :=
  String.prefix needle hay ||
  match hay with
  | EmptyString => false
  | String _ hay' => contains needle hay'
  end.

(** [s.removeprefix(p)] *)
Fixpoint drop (n : nat) (s : string) : string :=
  match n, s with
  | O, _ => s
  | S _, EmptyString => EmptyString
  | S n', String _ s' => drop n' s'
  end.

Definition removeprefix (p s : string) : string :=
  if String.prefix p s then drop (String.length p) s else s.

(** [s.replace(a, b)] for one-character [a] and [b]. *)
Fixpoint replace (a b : ascii) (s : string) : string :=
  match s with
  | EmptyString => EmptyString
  | String c s' => String (if Ascii.eqb c a then b else c) (replace a b s')
  end.

(** [s.split(sep)] for a one-character separator: never the empty list. *)
Fixpoint split (sep : ascii) (s : string) : list string :=
  match s with
  | EmptyString => [EmptyString]
  | String c s' =>
      if Ascii.eqb c sep then EmptyString :: split sep s'
      else match split sep s' with
           | [] => [String c EmptyString]
           | w :: ws => String c w :: ws
           end
  end.

(** [sep.join(l)] *)
Fixpoint join (sep : string) (l : list string) : string :=
  match l with
  | [] => EmptyString
  | [x] => x
  | x :: l' => x ++ sep ++ join sep l'
  end.

(** [s.endswith(suffix)] *)
Fixpoint endswith (s suffix : string) : bool :=
  String.eqb s suffix ||
  match s with
  | EmptyString => false
  | String _ s' => endswith s' suffix
  end.

Section WithPlatform.
Context `{Platform}.

Fixpoint all_space (s : string) : bool :=
  match s with
  | EmptyString => true
  | String c s' => isspace c && all_space s'
  end.

Fixpoint lstrip (s : string) : string :=
  match s with
  | EmptyString => EmptyString
  | String c s' => if isspace c then lstrip s' else s
  end.

Fixpoint rstrip (s : string) : string :=
  match s with
  | EmptyString => EmptyString
  | String c s' =>
      match rstrip s' with
      | EmptyString => if isspace c then EmptyString else String c EmptyString
      | r => String c r
      end
  end.

(** [s.strip()] *)
Definition strip (s : string) : string := rstrip (lstrip s).

End WithPlatform.

End Str.

(* ===================================================================== *)
(** * [pathlib]: pure paths (POSIX flavour)                               *)
(* ===================================================================== *)

Module Pathlib.

(** A path is a root flag and its components; [".."] is not resolved. *)
Record Path : Type := mkPath { absolute : bool; parts : list string }.

Definition is_component (s : string) : bool :=
  negb (String.eqb s "") && negb (String.eqb s ".").

(** [Path(s)] for a string [s]: components are separated by ["/"], empty
    and ["."] components are dropped, a leading ["/"] makes it absolute. *)
Definition of_string (s : string) : Path :=
  mkPath (String.prefix "/" s) (filter is_component (Str.split "/" s)).

(** [Path(a, b)]: an absolute segment discards what precedes it. *)
Definition joinpath (a b : Path) : Path :=
  if absolute b then b else mkPath (absolute a) (parts a ++ parts b).

(** [p / name] for one directory entry [name], as [glob] builds it. *)
Definition child (p : Path) (name : string) : Path :=
  mkPath (absolute p) (parts p ++ [name]).

(** [p.parent] *)
Definition parent (p : Path) : Path :=
  mkPath (absolute p) (removelast (parts p)).

(** [p.name]: the final component. *)
Definition name (p : Path) : string := last (parts p) "".

(** [p.as_posix()], also [str(p)] in this flavour. *)
Definition as_posix (p : Path) : string :=
  match absolute p, parts p with
  | false, [] => "."
  | a, ps => (if a then "/" else "") ++ Str.join "/" ps
  end.

(** [fnmatch] restricted to literals, [?] and [*]: the patterns of the
    plugin contain no bracket expression. *)
Fixpoint fnmatch (pat : string) : string -> bool :=
  match pat with
  | EmptyString => fun s => negb (Str.truthy s)
  | String c pat' =>
      if Ascii.eqb c "*" then
        fix star (s : string) : bool :=
          fnmatch pat' s ||
          match s with
          | EmptyString => false
          | String _ s' => star s'
          end
      else if Ascii.eqb c "?" then
        fun s =>
          match s with
          | EmptyString => false
          | String _ s' => fnmatch pat' s'
          end
      else
        fun s =>
          match s with
          | EmptyString => false
          | String d s' => Ascii.eqb c d && fnmatch pat' s'
          end
  end.

Fixpoint parts_eqb (a b : list string) : bool :=
  match a, b with
  | [], [] => true
  | x :: a', y :: b' => String.eqb x y && parts_eqb a' b'
  | _, _ => false
  end.

End Pathlib.

Export Pathlib (Path, mkPath, absolute, parts).

(* ===================================================================== *)
(** * [sqlite3]: the history databases                                    *)
(* ===================================================================== *)

Module Sqlite.

(** Chromium [urls] table (the columns the plugin selects). *)
Record urls_row : Type := mkUrl {
  url : string;
  title : option string;        (* [None] is SQL NULL *)
  last_visit_time : Z
}.

(** Gecko [moz_places] and [moz_historyvisits] tables. *)
Record places_row : Type := mkPlace {
  id : Z;
  place_url : string;
  place_title : option string
}.

Record visits_row : Type := mkVisit { place_id : Z; visit_date : Z }.

(** A database file: each table is present or not. *)
Record database : Type := mkDb {
  urls : option (list urls_row);
  moz_places : option (list places_row);
  moz_historyvisits : option (list visits_row)
}.

(** A fetched row [(url, title, time)]. *)
Definition row : Type := (string * option string * Z)%type.

Definition row_time (r : row) : Z := snd r.

(** The two query texts of [browsers.py]. *)
Inductive query : Type :=
| SELECT_urls
    (* SELECT url, title, last_visit_time FROM urls
       ORDER BY last_visit_time DESC *)
| SELECT_moz_places
    (* SELECT url, title, visit_date FROM moz_places
       INNER JOIN moz_historyvisits
       on moz_historyvisits.place_id = moz_places.id
       ORDER BY visit_date DESC *).

(** [ORDER BY time DESC]: insertion sort, ties in table order. *)
Fixpoint insert_desc (r : row) (l : list row) : list row :=
  match l with
  | [] => [r]
  | x :: l' =>
      if (row_time x <? row_time r)%Z then r :: l
      else x :: insert_desc r l'
  end.

Fixpoint order_by_time_desc (l : list row) : list row :=
  match l with
  | [] => []
  | r :: l' => insert_desc r (order_by_time_desc l')
  end.

Definition select_urls (t : list urls_row) : list row :=
  map (fun u => (url u, title u, last_visit_time u)) t.

Definition inner_join (ps : list places_row) (vs : list visits_row)
  : list row :=
  flat_map
    (fun p =>
       flat_map
         (fun v =>
            if (place_id v =? id p)%Z
            then [(place_url p, place_title p, visit_date v)]
            else [])
         vs)
    ps.

Definition no_such_table (t : string) : Py.exc :=
  Py.mkExc Py.SqliteError ("no such table: " ++ t).

(** The rows of a query before [LIMIT]. *)
Definition select (db : database) (q : query) : Py.result (list row) :=
  match q with
  | SELECT_urls =>
      match urls db with
      | Some t => Py.Return (order_by_time_desc (select_urls t))
      | None => Py.Raise (no_such_table "urls")
      end
  | SELECT_moz_places =>
      match moz_places db, moz_historyvisits db with
      | Some ps, Some vs => Py.Return (order_by_time_desc (inner_join ps vs))
      | None, _ => Py.Raise (no_such_table "moz_places")
      | _, None => Py.Raise (no_such_table "moz_historyvisits")
      end
  end.

Definition int64_min : Z := - 2 ^ 63.
Definition int64_max : Z := 2 ^ 63 - 1.

(** [LIMIT n]: a negative [n] means no upper bound on the rows. *)
Definition limit_rows (n : Z) (l : list row) : list row :=
  if (n <? 0)%Z then l else firstn (Z.to_nat n) l.

(** [cursor.execute(f'{query} LIMIT {limit}')] then [fetchall()]. *)
Definition execute (db : database) (q : query) (limit : Z)
  : Py.result (list row) :=
  if ((limit <? int64_min) || (int64_max <? limit))%Z
  then Py.Raise (Py.mkExc Py.SqliteError "datatype mismatch")
  else
    match select db q with
    | Py.Return rows => Py.Return (limit_rows limit rows)
    | Py.Raise e => Py.Raise e
    end.

End Sqlite.

(* ===================================================================== *)
(** * The world: file system, network, log                                *)
(* ===================================================================== *)

Module OS.

Inductive content : Type :=
| Bytes (data : list Byte.byte)
| Database (db : Sqlite.database).

(** A file carries a flag [locked]: removing or overwriting a locked file
    fails with [PermissionError] (read-only, or held open by a process). *)
Inductive node : Type :=
| File (c : content) (locked : bool)
| Dir.

(** The file system binds absolute component lists to nodes.  It is an
    association list: its order is the order in which a directory is
    listed, and the first binding of a path is the one in force. *)
Definition FS : Type := list (list string * node).

Inductive level : Type := DEBUG | INFO | WARNING | ERROR.

Record World : Type := mkWorld {
  cwd : list string;                          (* current directory *)
  tempdir : Path;                             (* [gettempdir()] *)
  LOCAL_DATA : string;                        (* [os.getenv('LOCALAPPDATA')] *)
  ROAMING : string;                           (* [os.getenv('APPDATA')] *)
  favicon_py : Path;                          (* [__file__] of favicon.py *)
  fs : FS;
  network : string -> option (list Byte.byte);(* response body, if reachable *)
  requests : list string;                     (* URLs opened, latest first *)
  log : list (level * string)                 (* records, latest first *)
}.

Definition set_fs (f : FS) (w : World) : World :=
  mkWorld (cwd w) (tempdir w) (LOCAL_DATA w) (ROAMING w) (favicon_py w)
          f (network w) (requests w) (log w).

Definition set_network (n : string -> option (list Byte.byte)) (w : World)
  : World :=
  mkWorld (cwd w) (tempdir w) (LOCAL_DATA w) (ROAMING w) (favicon_py w)
          (fs w) n (requests w) (log w).

Definition add_request (u : string) (w : World) : World :=
  mkWorld (cwd w) (tempdir w) (LOCAL_DATA w) (ROAMING w) (favicon_py w)
          (fs w) (network w) (u :: requests w) (log w).

Definition add_log (l : level) (msg : string) (w : World) : World :=
  mkWorld (cwd w) (tempdir w) (LOCAL_DATA w) (ROAMING w) (favicon_py w)
          (fs w) (network w) (requests w) ((l, msg) :: log w).

(** ** Pure operations on the file system *)

(** The absolute component list a path denotes in world [w]. *)
Definition resolve (w : World) (p : Path) : list string :=
  if absolute p then parts p else cwd w ++ parts p.

Fixpoint lookup (k : list string) (f : FS) : option node :=
  match f with
  | [] => None
  | (k', n) :: f' => if Pathlib.parts_eqb k' k then Some n else lookup k f'
  end.

(** The node at [k]; the root directory always exists. *)
Definition stat (f : FS) (k : list string) : option node :=
  match k with
  | [] => Some Dir
  | _ => lookup k f
  end.

Definition is_dir (f : FS) (k : list string) : bool :=
  match stat f k with
  | Some Dir => true
  | _ => false
  end.

Definition remove (k : list string) (f : FS) : FS :=
  filter (fun e => negb (Pathlib.parts_eqb (fst e) k)) f.

(** Rebind [k]: in place when bound, as the last entry otherwise. *)
Definition store (k : list string) (n : node) (f : FS) : FS :=
  match lookup k f with
  | Some _ =>
      map (fun e => if Pathlib.parts_eqb (fst e) k then (k, n) else e) f
  | None => f ++ [(k, n)]
  end.

(** The entry name of [k] when [k] lies directly in directory [d]. *)
Fixpoint entry_name (d k : list string) : option string :=
  match d, k with
  | [], [name] => Some name
  | x :: d', y :: k' => if String.eqb x y then entry_name d' k' else None
  | _, _ => None
  end.

Fixpoint mem (x : string) (l : list string) : bool :=
  match l with
  | [] => false
  | y :: l' => String.eqb y x || mem x l'
  end.

(** Each name once, at its first position. *)
Fixpoint dedup (seen l : list string) : list string :=
  match l with
  | [] => []
  | x :: l' => if mem x seen then dedup seen l' else x :: dedup (x :: seen) l'
  end.

Fixpoint names_in (d : list string) (f : FS) : list string :=
  match f with
  | [] => []
  | (k, _) :: f' =>
      match entry_name d k with
      | Some name => name :: names_in d f'
      | None => names_in d f'
      end
  end.

(** [os.scandir(d)]: the names bound directly under [d], in order. *)
Definition listdir (f : FS) (d : list string) : list string :=
  dedup [] (names_in d f).

Definition parent (k : list string) : list string := removelast k.

(** ** Effects *)

Definition oserror (c : Py.exc_class) (p : Path) : Py.exc :=
  Py.mkExc c (Pathlib.as_posix p).

(** [Path.exists()] *)
Definition path_exists (p : Path) : M World bool :=
  fun w =>
    (Py.Return (match stat (fs w) (resolve w p) with
                | Some _ => true
                | None => false
                end), w).

(** [os.remove(p)] and [Path.unlink()] *)
Definition unlink (p : Path) : M World unit :=
  fun w =>
    match stat (fs w) (resolve w p) with
    | None => (Py.Raise (oserror Py.FileNotFoundError p), w)
    | Some Dir => (Py.Raise (oserror Py.IsADirectoryError p), w)
    | Some (File _ true) => (Py.Raise (oserror Py.PermissionError p), w)
    | Some (File _ false) =>
        (Py.Return tt, set_fs (remove (resolve w p) (fs w)) w)
    end.

(** Create or overwrite the file at [p] with content [c]: the common part
    of [open(p, 'wb')] followed by a write, and of the copy in
    [shutil.copy]. *)
Definition write_file (p : Path) (c : content) : M World unit :=
  fun w =>
    let k := resolve w p in
    match stat (fs w) k with
    | Some Dir => (Py.Raise (oserror Py.IsADirectoryError p), w)
    | Some (File _ true) => (Py.Raise (oserror Py.PermissionError p), w)
    | Some (File _ false) =>
        (Py.Return tt, set_fs (store k (File c false) (fs w)) w)
    | None =>
        if is_dir (fs w) (parent k)
        then (Py.Return tt, set_fs (store k (File c false) (fs w)) w)
        else (Py.Raise (oserror Py.FileNotFoundError p), w)
    end.

(** [shutil.copy(src, dst)]: the source is opened first, so a missing
    source raises before anything is created; a directory [dst] receives
    the file under the source's name.  Returns the path written. *)
Definition shutil_copy (src dst : Path) : M World Path :=
  fun w =>
    let target :=
      if is_dir (fs w) (resolve w dst)
      then Pathlib.child dst (Pathlib.name src) else dst in
    match stat (fs w) (resolve w src) with
    | None => (Py.Raise (oserror Py.FileNotFoundError src), w)
    | Some Dir => (Py.Raise (oserror Py.IsADirectoryError src), w)
    | Some (File c _) =>
        if Pathlib.parts_eqb (resolve w src) (resolve w target)
        then (Py.Raise (oserror Py.SameFileError src), w)
        else
          match write_file target c w with
          | (Py.Return _, w') => (Py.Return target, w')
          | (Py.Raise e, w') => (Py.Raise e, w')
          end
    end.

(** [Path.mkdir(exist_ok=True)] *)
Definition mkdir_exist_ok (p : Path) : M World unit :=
  fun w =>
    let k := resolve w p in
    match stat (fs w) k with
    | Some Dir => (Py.Return tt, w)
    | Some (File _ _) => (Py.Raise (oserror Py.FileExistsError p), w)
    | None =>
        if is_dir (fs w) (parent k)
        then (Py.Return tt, set_fs (store k Dir (fs w)) w)
        else (Py.Raise (oserror Py.FileNotFoundError p), w)
    end.

(** [Path.glob(pattern)] for a one-component pattern: the entries of the
    directory are read (all of them, before the first is yielded), those
    whose name matches are yielded as [p / name].  A path that is not a
    directory yields nothing. *)
Definition glob (p : Path) (pattern : string) : M World (list Path) :=
  fun w =>
    (Py.Return
       (if is_dir (fs w) (resolve w p)
        then map (Pathlib.child p)
                 (filter (Pathlib.fnmatch pattern)
                         (listdir (fs w) (resolve w p)))
        else []), w).

(** [urllib.request.urlopen(req, timeout=2)] and [response.read()]: the
    request is recorded; an unreachable URL raises [URLError]. *)
Definition urlopen (u : string) : M World (list Byte.byte) :=
  fun w =>
    match network w u with
    | Some body => (Py.Return body, add_request u w)
    | None => (Py.Raise (Py.mkExc Py.URLError u), add_request u w)
    end.

(** [log.<level>(msg)] *)
Definition logging (l : level) (msg : string) : M World unit :=
  modify (add_log l msg).

(** [sqlite3.connect(p)]: the connection is a handle on the file. *)
Record connection : Type := mkConnection { db_file : Path }.

Definition sqlite3_connect (p : Path) : M World connection :=
  ret (mkConnection p).

(** [cursor.execute(f'{query} LIMIT {limit}')] and [cursor.fetchall()]. *)
Definition execute_fetchall (c : connection) (q : Sqlite.query) (limit : Z)
  : M World (list Sqlite.row) :=
  fun w =>
    match stat (fs w) (resolve w (db_file c)) with
    | Some (File (Database db) _) => (Sqlite.execute db q limit, w)
    | Some (File (Bytes _) _) =>
        (Py.Raise (Py.mkExc Py.SqliteError "file is not a database"), w)
    | _ =>
        (Py.Raise (Py.mkExc Py.SqliteError "unable to open database file"), w)
    end.

(** [connection.close()] *)
Definition connection_close (c : connection) : M World unit := ret tt.

End OS.

Export OS (World).

(* ===================================================================== *)
(** * Methods: computations over an object and the world                  *)
(* ===================================================================== *)

(** A method of a class whose instances have type [T]. *)
Definition Method (T A : Type) : Type := M (T * World) A.

(** Run a world computation inside a method. *)
Definition io {T A} (c : M World A) : Method T A :=
  fun s =>
    match c (snd s) with
    | (r, w') => (r, (fst s, w'))
    end.

(** Read [self]. *)
Definition self {T} : Method T T := fun s => (Py.Return (fst s), s).

(** Assign attributes of [self]. *)
Definition setattr {T} (f : T -> T) : Method T unit :=
  fun s => (Py.Return tt, (f (fst s), snd s)).

(* ===================================================================== *)
(** * browsers.py                                                         *)
(* ===================================================================== *)

(** [Path(s1, ..., sn)] from string segments. *)
Definition Path_of (segments : list string) : Path :=
  fold_left Pathlib.joinpath (map Pathlib.of_string segments)
            (mkPath false []).

Definition CHROME_DIR (w : World) : Path :=
  Path_of [OS.LOCAL_DATA w; "Google"; "Chrome"; "User Data"; "Default";
           "History"].
Definition FIREFOX_DIR (w : World) : Path :=
  Path_of [OS.ROAMING w; "Mozilla"; "Firefox"; "Profiles"].
Definition EDGE_DIR (w : World) : Path :=
  Path_of [OS.LOCAL_DATA w; "Microsoft"; "Edge"; "User Data"; "Default";
           "History"].
Definition BRAVE_DIR (w : World) : Path :=
  Path_of [OS.LOCAL_DATA w; "BraveSoftware"; "Brave-Browser"; "User Data";
           "Default"; "History"].
Definition OPERA_DIR (w : World) : Path :=
  Path_of [OS.ROAMING w; "Opera Software"; "Opera Stable"; "Default";
           "History"].
Definition VIVALDI_DIR (w : World) : Path :=
  Path_of [OS.LOCAL_DATA w; "Vivaldi"; "User Data"; "Default"; "History"].
Definition ARC_DIR (w : World) : Path :=
  Path_of [OS.LOCAL_DATA w; "Packages";
           "TheBrowserCompany.Arc_ttt1ap7aakyb4"; "LocalCache"; "Local";
           "Arc"; "User Data"; "Default"; "History"].
Definition ZEN_DIR (w : World) : Path :=
  Path_of [OS.ROAMING w; "zen"; "Profiles"].

(** The classes of [browsers.py]; [Zen] derives from [Firefox], every
    other adapter from [Base]. *)
Inductive browser_class : Type :=
| Base | Chrome | Firefox | Edge | Brave | Opera | Vivaldi | Arc | Zen.

Definition browser_class_eqb (a b : browser_class) : bool :=
  match a, b with
  | Base, Base | Chrome, Chrome | Firefox, Firefox | Edge, Edge
  | Brave, Brave | Opera, Opera | Vivaldi, Vivaldi | Arc, Arc
  | Zen, Zen => true
  | _, _ => false
  end.

Definition class_name (c : browser_class) : string :=
  match c with
  | Base => "Base" | Chrome => "Chrome" | Firefox => "Firefox"
  | Edge => "Edge" | Brave => "Brave" | Opera => "Opera"
  | Vivaldi => "Vivaldi" | Arc => "Arc" | Zen => "Zen"
  end.

Definition derives (a b : browser_class) : bool :=
  browser_class_eqb a b ||
  match a, b with
  | _, Base => true
  | Zen, Firefox => true
  | _, _ => false
  end.

(** An adapter instance: its class and its attributes.  [temp_path] is
    absent ([None]) until [_copy_database] assigns it. *)
Record Browser : Type := mkBrowser {
  class_of : browser_class;
  database_path : Path;
  temp_path : option Path
}.

(** [self.temp_path = p] *)
Definition set_temp_path (p : Path) (b : Browser) : Browser :=
  mkBrowser (class_of b) (database_path b) (Some p).

Definition isinstance (b : Browser) (classes : list browser_class) : bool :=
  existsb (derives (class_of b)) classes.

Record HistoryItem : Type := mkHistoryItem {
  browser : Browser;
  url : string;
  title : string;
  last_visit_time : Z           (* an SQLite INTEGER: 64 bits *)
}.

Definition is_leap (y : Z) : bool :=
  ((y mod 4 =? 0) && (negb (y mod 100 =? 0) || (y mod 400 =? 0)))%Z.

Definition days_in_month (y m : Z) : Z :=
  if (m =? 2)%Z then (if is_leap y then 29 else 28)%Z
  else if ((m =? 4) || (m =? 6) || (m =? 9) || (m =? 11))%Z then 30%Z
  else 31%Z.

Definition type_name (v : Py.value) : string :=
  match v with
  | Py.Int _ => "int"
  | Py.Float _ => "float"
  | Py.Str _ => "str"
  end.

Definition not_an_integer (v : Py.value) : Py.exc :=
  Py.mkExc Py.TypeError
    ("'" ++ type_name v ++ "' object cannot be interpreted as an integer").

(** [datetime(year, month, day)]: every argument must be an [int], and
    the first that is not one is reported. *)
Definition datetime_new (y m d : Py.value) : Py.result datetime :=
  match y, m, d with
  | Py.Int y, Py.Int m, Py.Int d =>
      if ((1 <=? y) && (y <=? 9999) && (1 <=? m) && (m <=? 12)
          && (1 <=? d) && (d <=? days_in_month y m))%Z
      then Py.Return (mkDatetime y m d 0 0 0 0)
      else Py.Raise (Py.mkExc Py.ValueError "out of range")
  | Py.Int _, Py.Int _, v | Py.Int _, v, _ | v, _, _ =>
      Py.Raise (not_an_integer v)
  end.

(** [a / b] on integers: true division, a float. *)
Definition truediv (a b : Z) : Q := (inject_Z a / inject_Z b)%Q.

Module HistoryItem.
Section WithPlatform.
Context `{Platform}.

Definition __init__ (browser : Browser) (url : string)
    (title : option string) (last_visit_time : Z) : HistoryItem :=
  mkHistoryItem browser url
    (match title with
     | None => url                                   (* [not None] *)
     | Some t =>
         if negb (Str.truthy t) || negb (Str.truthy (Str.strip t))
         then url else t
     end)
    last_visit_time.

Definition timestamp (self : HistoryItem) : M World datetime :=
  let chromium_browsers := [Chrome; Edge; Brave; Opera; Vivaldi; Arc] in
  let firefox_browsers := [Firefox; Zen] in
  if isinstance (browser self) chromium_browsers then
    call (datetime_new
            (Py.Float (truediv (last_visit_time self) 1000000
                       - inject_Z 11644473600)%Q)
            (Py.Str "unixepoch") (Py.Str "localtime"))
  else if isinstance (browser self) firefox_browsers then
    call (fromtimestamp (truediv (last_visit_time self) 1000000))
  else
    OS.logging OS.WARNING
      ("Unknown browser type: " ++ class_name (class_of (browser self))) ;;
    call (fromtimestamp (truediv (last_visit_time self) 1000000)).

End WithPlatform.
End HistoryItem.

Module Base.
Section WithPlatform.
Context `{Platform}.

(** [__del__]: remove the temporary copy, if one was made. *)
Definition __del__ : Method Browser unit :=
  me <- self ;;
  match temp_path me with
  | Some p =>
      try_except (io (OS.unlink p))
                 [Py.OSError; Py.FileNotFoundError]
                 (fun _ => ret tt)
  | None => ret tt
  end.

Definition _copy_database (database_path : Path) : Method Browser Path :=
  temp_dir <- io (gets OS.tempdir) ;;
  temp_path <- io (OS.shutil_copy database_path temp_dir) ;;
  setattr (set_temp_path temp_path) ;;
  ret temp_path.

Definition query_history (database_path : Path) (query : Sqlite.query)
    (limit : Z) : Method Browser (list Sqlite.row) :=
  temp_path <- _copy_database database_path ;;
  connection <- io (OS.sqlite3_connect temp_path) ;;
  try_finally
    (recent <- io (OS.execute_fetchall connection query limit) ;;
     ret recent)
    (io (OS.connection_close connection)).

Definition get_history_items (results : list Sqlite.row)
  : Method Browser (list HistoryItem) :=
  me <- self ;;
  ret (map (fun result : Sqlite.row =>
              let '(url, title, last_visit_time) := result in
              HistoryItem.__init__ me url title last_visit_time)
           results).

End WithPlatform.
End Base.

Module Chrome.
Section WithPlatform.
Context `{Platform}.

Definition __init__ (database_path : Path) : Browser :=
  mkBrowser Chrome database_path None.

Definition history (limit : Z) : Method Browser (list HistoryItem) :=
  me <- self ;;
  recents <- Base.query_history (database_path me) Sqlite.SELECT_urls limit ;;
  Base.get_history_items recents.

End WithPlatform.
End Chrome.

Module Firefox.
Section WithPlatform.
Context `{Platform}.

Definition patterns : list string :=
  [ "*.default-release";   (* Standard Firefox release profile *)
    "*Default (release)";  (* Zen browser pattern *)
    "*.default";           (* Older Firefox pattern *)
    "*Default Profile" ].  (* Alternative default pattern *)

(** The loop of [find_database] over the patterns still to try. *)
Fixpoint find_database_from (path : Path) (patterns : list string)
  : M World Path :=
  match patterns with
  | [] =>
      raise (Py.mkExc Py.FileNotFoundError
               ("No Firefox/Zen profile found in " ++ Pathlib.as_posix path))
  | pattern :: rest =>
      found <- OS.glob path pattern ;;
      match found with
      | release_folder :: _ =>             (* [next(..., None)] is a path *)
          ret (Pathlib.joinpath (Pathlib.joinpath path release_folder)
                                (Pathlib.of_string "places.sqlite"))
      | [] => find_database_from path rest
      end
  end.

Definition find_database (path : Path) : M World Path :=
  find_database_from path patterns.

(** [Firefox(database_path)]; [Zen] reuses it through [super().__init__]. *)
Definition init_as (c : browser_class) (database_path : Path)
  : M World Browser :=
  p <- find_database database_path ;;
  ret (mkBrowser c p None).

Definition __init__ (database_path : Path) : M World Browser :=
  init_as Firefox database_path.

Definition history (limit : Z) : Method Browser (list HistoryItem) :=
  me <- self ;;
  recents <- Base.query_history (database_path me)
                                Sqlite.SELECT_moz_places limit ;;
  Base.get_history_items recents.

End WithPlatform.
End Firefox.

Module Edge.
Section WithPlatform.
Context `{Platform}.

Definition __init__ (database_path : Path) : Browser :=
  mkBrowser Edge database_path None.

Definition history (limit : Z) : Method Browser (list HistoryItem) :=
  me <- self ;;
  recents <- Base.query_history (database_path me) Sqlite.SELECT_urls limit ;;
  Base.get_history_items recents.

End WithPlatform.
End Edge.

Module Brave.
Section WithPlatform.
Context `{Platform}.

Definition __init__ (database_path : Path) : Browser :=
  mkBrowser Brave database_path None.

Definition history (limit : Z) : Method Browser (list HistoryItem) :=
  me <- self ;;
  recents <- Base.query_history (database_path me) Sqlite.SELECT_urls limit ;;
  Base.get_history_items recents.

End WithPlatform.
End Brave.

Module Opera.
Section WithPlatform.
Context `{Platform}.

Definition __init__ (database_path : Path) : Browser :=
  mkBrowser Opera database_path None.

Definition history (limit : Z) : Method Browser (list HistoryItem) :=
  me <- self ;;
  recents <- Base.query_history (database_path me) Sqlite.SELECT_urls limit ;;
  Base.get_history_items recents.

End WithPlatform.
End Opera.

Module Vivaldi.
Section WithPlatform.
Context `{Platform}.

Definition __init__ (database_path : Path) : Browser :=
  mkBrowser Vivaldi database_path None.

Definition history (limit : Z) : Method Browser (list HistoryItem) :=
  me <- self ;;
  recents <- Base.query_history (database_path me) Sqlite.SELECT_urls limit ;;
  Base.get_history_items recents.

End WithPlatform.
End Vivaldi.

Module Arc.
Section WithPlatform.
Context `{Platform}.

Definition __init__ (database_path : Path) : Browser :=
  mkBrowser Arc database_path None.

Definition history (limit : Z) : Method Browser (list HistoryItem) :=
  me <- self ;;
  recents <- Base.query_history (database_path me) Sqlite.SELECT_urls limit ;;
  Base.get_history_items recents.

End WithPlatform.
End Arc.

Module Zen.
Section WithPlatform.
Context `{Platform}.

Definition __init__ (database_path : Path) : M World Browser :=
  Firefox.init_as Zen database_path.

End WithPlatform.
End Zen.

Section Dispatch.
Context `{Platform}.

(** [browser.history(limit)]: the method of the instance's class. *)
Definition history (limit : Z) : Method Browser (list HistoryItem) :=
  me <- self ;;
  match class_of me with
  | Chrome => Chrome.history limit
  | Firefox | Zen => Firefox.history limit
  | Edge => Edge.history limit
  | Brave => Brave.history limit
  | Opera => Opera.history limit
  | Vivaldi => Vivaldi.history limit
  | Arc => Arc.history limit
  | Base =>
      raise (Py.mkExc Py.AttributeError
               "'Base' object has no attribute 'history'")
  end.

(** The dictionary of [get], in insertion order. *)
Definition browsers : list (string * M World Browser) :=
  [ ("chrome", d <- gets CHROME_DIR ;; ret (Chrome.__init__ d));
    ("firefox", d <- gets FIREFOX_DIR ;; Firefox.__init__ d);
    ("edge", d <- gets EDGE_DIR ;; ret (Edge.__init__ d));
    ("brave", d <- gets BRAVE_DIR ;; ret (Brave.__init__ d));
    ("opera", d <- gets OPERA_DIR ;; ret (Opera.__init__ d));
    ("vivaldi", d <- gets VIVALDI_DIR ;; ret (Vivaldi.__init__ d));
    ("arc", d <- gets ARC_DIR ;; ret (Arc.__init__ d));
    ("zen", d <- gets ZEN_DIR ;; Zen.__init__ d) ].

Fixpoint dict_get {V} (d : list (string * V)) (k : string) : option V :=
  match d with
  | [] => None
  | (k', v) :: d' => if String.eqb k' k then Some v else dict_get d' k
  end.

Definition get (browser_name : string) : M World Browser :=
  match dict_get browsers browser_name with
  | None =>
      raise (Py.mkExc Py.ValueError
               ("Invalid browser name: '" ++ browser_name ++ "'. "
                ++ "Valid options: " ++ Str.join ", " (map fst browsers)))
  | Some browser_class => browser_class
  end.

End Dispatch.

(* ===================================================================== *)
(** * favicon.py                                                          *)
(* ===================================================================== *)

Record FaviconCache : Type := mkFaviconCache { cache_dir : Path }.

Module FaviconCache.
Section WithPlatform.
Context `{Platform}.

Definition __init__ (cache_dir : option Path) : M World FaviconCache :=
  dir <- match cache_dir with
         | None =>
             file <- gets OS.favicon_py ;;
             let plugin_dir := Pathlib.parent (Pathlib.parent file) in
             ret (Pathlib.joinpath plugin_dir (Pathlib.of_string "favicons"))
         | Some d => ret d
         end ;;
  OS.mkdir_exist_ok dir ;;
  ret (mkFaviconCache dir).

(** [a or b] on strings. *)
Definition or_else (a b : string) : string := if Str.truthy a then a else b.

Definition _get_domain (url : string) : M World (option string) :=
  try_except
    (parsed <- call (match urlparse url with
                     | Some parsed => Py.Return parsed
                     | None => Py.Raise (Py.mkExc Py.ValueError url)
                     end) ;;
     let domain :=
       or_else (netloc parsed) (hd "" (Str.split "/" (path parsed))) in
     let domain := Str.removeprefix "www." domain in
     ret (Some domain))
    [Py.ValueError; Py.AttributeError]
    (fun e =>
       OS.logging OS.ERROR
         ("Error parsing URL " ++ url ++ ": " ++ Py.exc_msg e) ;;
       ret None).

Definition _sanitize_filename (domain : string) : string :=
  Str.replace "\" "_" (Str.replace "/" "_" (Str.replace ":" "_" domain)).

(** The cache file of a domain. *)
Definition favicon_file (self : FaviconCache) (domain : string) : Path :=
  Pathlib.joinpath (cache_dir self)
    (Pathlib.of_string (_sanitize_filename domain ++ ".png")).

Definition favicon_service (domain : string) : string :=
  "https://www.google.com/s2/favicons?domain=" ++ domain ++ "&sz=32".

Definition get_favicon_path (self : FaviconCache) (url : string)
  : M World (option string) :=
  domain <- _get_domain url ;;
  match domain with
  | None => ret None
  | Some domain =>
      if negb (Str.truthy domain) then ret None
      else
        let favicon_path := favicon_file self domain in
        cached <- OS.path_exists favicon_path ;;
        if cached then ret (Some (Pathlib.as_posix favicon_path))
        else
          try_except
            (let favicon_url := favicon_service domain in
             favicon_data <- OS.urlopen favicon_url ;;
             OS.write_file favicon_path (OS.Bytes favicon_data) ;;
             OS.logging OS.INFO ("Downloaded favicon for " ++ domain) ;;
             ret (Some (Pathlib.as_posix favicon_path)))
            [Py.URLError; Py.OSError; Py.OSError]
            (fun e =>
               OS.logging OS.DEBUG
                 ("Could not download favicon for " ++ domain ++ ": "
                  ++ Py.exc_msg e) ;;
               ret None)
  end.

Definition clear_cache (self : FaviconCache) : M World unit :=
  try_except
    (files <- OS.glob (cache_dir self) "*.png" ;;
     for_each files OS.unlink ;;
     OS.logging OS.INFO "Favicon cache cleared")
    [Py.OSError; Py.PermissionError]
    (fun e =>
       OS.logging OS.ERROR ("Error clearing favicon cache: " ++ Py.exc_msg e)).

End WithPlatform.
End FaviconCache.

(* ===================================================================== *)
(** * main.py                                                             *)
(* ===================================================================== *)

Module Main.

Inductive icon : Type :=
| ICON_HISTORY
| ICON_BROWSER
| IconFile (path : string).

Inductive action : Type := browser_open.

(** One result record of the launcher, as [add_item] builds it. *)
Record Item : Type := mkItem {
  Title : string;
  SubTitle : string;
  IcoPath : option icon;
  Glyph : option string;
  JsonRPCAction : option action;
  Parameters : list string;
  Context : list string
}.

Definition HISTORY_GLYPH : string := "".
Definition DEFAULT_BROWSER : string := "chrome".

Record BrowserHistory : Type := mkBrowserHistory {
  settings : list (string * string);
  default_browser : string;
  browser : Browser;
  favicon_cache : FaviconCache;
  _results : list Item
}.

Definition set_browser (b : Browser) (p : BrowserHistory) : BrowserHistory :=
  mkBrowserHistory (settings p) (default_browser p) b (favicon_cache p)
                   (_results p).

(** Run a method of [self.browser]. *)
Definition on_browser {A} (m : Method Browser A) : Method BrowserHistory A :=
  fun s =>
    match m (browser (fst s), snd s) with
    | (r, (b', w')) => (r, (set_browser b' (fst s), w'))
    end.

(** [self.add_item(...)]: append a record to the results. *)
Definition add_item (i : Item) : Method BrowserHistory unit :=
  setattr (fun p =>
             mkBrowserHistory (settings p) (default_browser p) (browser p)
                              (favicon_cache p) (_results p ++ [i])).

(** [str(n)] for a non-negative integer. *)
Definition str_of_nat (n : nat) : string :=
  DecimalString.NilZero.string_of_uint (Nat.to_uint n).

(** [enumerate(l)] *)
Definition enumerate {A} (l : list A) : list (nat * A) :=
  combine (seq 0 (List.length l)) l.

Section WithPlatform.
Context `{Platform}.

Definition __init__ (settings : list (string * string))
  : M World BrowserHistory :=
  let default_browser :=
    match dict_get settings "default_browser" with
    | Some v => v
    | None => DEFAULT_BROWSER
    end in
  browser <- get (lower default_browser) ;;
  favicon_cache <- FaviconCache.__init__ None ;;
  ret (mkBrowserHistory settings default_browser browser favicon_cache []).

(** [query_lower in item.title.lower() or query_lower in item.url.lower()] *)
Definition matches (query_lower : string) (item : HistoryItem) : bool :=
  Str.contains query_lower (lower (title item))
  || Str.contains query_lower (lower (url item)).

(** The body of the loop of [query]. *)
Definition query_step (query_lower : string) (entry : nat * HistoryItem)
  : Method BrowserHistory unit :=
  let '(idx, item) := entry in
  if matches query_lower item then
    let subtitle := (str_of_nat idx ++ ". " ++ url item)%string in
    me <- self ;;
    favicon_path <-
      io (FaviconCache.get_favicon_path (favicon_cache me) (url item)) ;;
    let '(icon, glyph) :=
      match favicon_path with
      | Some p =>
          if Str.truthy p then (IconFile p, None)
          else (ICON_HISTORY, Some HISTORY_GLYPH)
      | None => (ICON_HISTORY, Some HISTORY_GLYPH)
      end in
    add_item (mkItem (title item) subtitle (Some icon) glyph
                     (Some browser_open) [url item]
                     [title item; url item])
  else ret tt.

Definition query (query : string) : Method BrowserHistory unit :=
  history <- on_browser (history 10000) ;;
  let query_lower := lower query in
  for_each (enumerate history) (query_step query_lower).

Definition _query (q : string) : Method BrowserHistory (list Item) :=
  try_except (query q)
    [Py.FileNotFoundError]
    (fun _ =>
       add_item (mkItem "History not found!"
                        "Check your logs for more information."
                        None None None [] [])) ;;
  me <- self ;;
  ret (_results me).

Definition context_menu (data : list string) : Method BrowserHistory unit :=
  add_item (mkItem "Open in browser" (nth 0 data "") (Some ICON_BROWSER)
                   None (Some browser_open) [nth 1 data ""] []).

End WithPlatform.
End Main.

(* ===================================================================== *)
(** * A concrete platform and sample worlds                               *)
(* ===================================================================== *)

Module Sample.

(** ASCII white space as [str.isspace] sees it. *)
Definition isspace (c : ascii) : bool :=
  let n := nat_of_ascii c in
  ((9 <=? n) && (n <=? 13) || (28 <=? n) && (n <=? 32))%nat.

Definition lower_char (c : ascii) : ascii :=
  let n := nat_of_ascii c in
  if ((65 <=? n) && (n <=? 90))%nat then ascii_of_nat (n + 32) else c.

Fixpoint lower (s : string) : string :=
  match s with
  | EmptyString => EmptyString
  | String c s' => String (lower_char c) (lower s')
  end.

(** The text after the first occurrence of [needle]. *)
Fixpoint after (needle s : string) : option string :=
  if String.prefix needle s then Some (Str.drop (String.length needle) s)
  else match s with
       | EmptyString => None
       | String _ s' => after needle s'
       end.

Fixpoint until (sep : ascii) (s : string) : string :=
  match s with
  | EmptyString => EmptyString
  | String c s' => if Ascii.eqb c sep then EmptyString else String c (until sep s')
  end.

Fixpoint from (sep : ascii) (s : string) : string :=
  match s with
  | EmptyString => EmptyString
  | String c s' => if Ascii.eqb c sep then s else from sep s'
  end.

(** [scheme://netloc/path], or a bare path; an unbalanced bracket in the
    network location is the [ValueError] "Invalid IPv6 URL". *)
Definition urlparse (u : string) : option ParseResult :=
  match after "://" u with
  | Some rest =>
      let host := until "/" rest in
      if xorb (Str.contains "[" host) (Str.contains "]" host) then None
      else Some (mkParseResult host (from "/" rest))
  | None => Some (mkParseResult "" u)
  end.

(** Local time in the zone UTC: days since the epoch to a civil date. *)
Definition fromtimestamp (t : Q) : Py.result datetime :=
  let us := Qfloor (t * inject_Z 1000000) in
  let secs := (us / 1000000)%Z in
  let days := (secs / 86400)%Z in
  let rem := (secs mod 86400)%Z in
  let z := (days + 719468)%Z in
  let era := (z / 146097)%Z in
  let doe := (z mod 146097)%Z in
  let yoe := ((doe - doe / 1460 + doe / 36524 - doe / 146096) / 365)%Z in
  let doy := (doe - (365 * yoe + yoe / 4 - yoe / 100))%Z in
  let mp := ((5 * doy + 2) / 153)%Z in
  let d := (doy - (153 * mp + 2) / 5 + 1)%Z in
  let m := (if mp <? 10 then mp + 3 else mp - 9)%Z in
  let y := (yoe + era * 400 + (if m <=? 2 then 1 else 0))%Z in
  if ((1 <=? y) && (y <=? 9999))%Z
  then Py.Return (mkDatetime y m d (rem / 3600) (rem mod 3600 / 60)
                             (rem mod 60) (us mod 1000000))
  else Py.Raise (Py.mkExc Py.ValueError "year is out of range").

Definition platform : Platform :=
  Build_Platform isspace lower urlparse fromtimestamp.

Definition abs (l : list string) : Path := mkPath true l.
Definition rel (l : list string) : Path := mkPath false l.

Definition offline : string -> option (list Byte.byte) := fun _ => None.

(** A world with the given files and network, nothing requested or
    logged yet. *)
Definition world (files : OS.FS) (net : string -> option (list Byte.byte))
  : World :=
  OS.mkWorld ["home"; "user"] (abs ["tmp"]) "/data/Local" "/data/Roaming"
             (abs ["plugins"; "history"; "plugin"; "favicon.py"])
             files net [] [].

End Sample.

(* ===================================================================== *)
(** * Vocabulary of the specification                                     *)
(* ===================================================================== *)

(** Rows in recency order: no row is later than the one before it. *)
Definition later_first (a b : Sqlite.row) : Prop :=
  (Sqlite.row_time b <= Sqlite.row_time a)%Z.

(** C2 as stated: a history that is returned has at most [n] entries, and
    never more than 10,000. *)
Definition history_capped `{Platform} (b : Browser) (w : World) (n : Z)
  : Prop :=
  match fst (history n (b, w)) with
  | Py.Return items =>
      (Z.of_nat (List.length items) <= n
       /\ Z.of_nat (List.length items) <= 10000)%Z
  | Py.Raise _ => True
  end.

(** [needle] occurs inside [hay]. *)
Definition substring (needle hay : string) : Prop :=
  exists pre post, hay = (pre ++ needle ++ post)%string.


(** A pattern without wildcard: it matches itself only. *)
Fixpoint is_literal (pat : string) : bool :=
  match pat with
  | EmptyString => true
  | String c pat' =>
      negb (Ascii.eqb c "*") && negb (Ascii.eqb c "?") && is_literal pat'
  end.

(** The cached images of [fc]: what [glob('*.png')] yields in [w]. *)
Definition cached_images (fc : FaviconCache) (w : World) : list Path :=
  match fst (OS.glob (cache_dir fc) "*.png" w) with
  | Py.Return l => l
  | Py.Raise _ => []
  end.

(** Removing [p] would succeed: an existing file that is not locked. *)
Definition deletable (w : World) (p : Path) : bool :=
  match OS.stat (OS.fs w) (OS.resolve w p) with
  | Some (OS.File _ false) => true
  | _ => false
  end.

(** The longest prefix of [l] whose elements all satisfy [f]. *)
Fixpoint take_while {A} (f : A -> bool) (l : list A) : list A :=
  match l with
  | [] => []
  | x :: l' => if f x then x :: take_while f l' else []
  end.

Definition remove_all (ks : list (list string)) (f : OS.FS) : OS.FS :=
  fold_left (fun f k => OS.remove k f) ks f.

(** [k] is an entry of the cache directory whose name ends in [.png]. *)
Definition is_cached_image (fc : FaviconCache) (w : World)
    (k : list string) : bool :=
  match OS.entry_name (OS.resolve w (cache_dir fc)) k with
  | Some name => Str.endswith name ".png"
  | None => false
  end.

(** C4 as stated: an error on one file does not keep [clear_cache] from
    deleting the others, so every cached image that can be deleted is
    gone afterwards. *)
Definition clears_all_it_can (fc : FaviconCache) (w : World) : Prop :=
  forall p,
    In p (cached_images fc w) -> deletable w p = true ->
    OS.stat (OS.fs (snd (FaviconCache.clear_cache fc w))) (OS.resolve w p)
    = None.

(** The names a profile search sees under [root]. *)
Definition entries (w : World) (root : Path) : list string :=
  if OS.is_dir (OS.fs w) (OS.resolve w root)
  then OS.listdir (OS.fs w) (OS.resolve w root) else [].

(** The profile the specification selects: the first name, in listing
    order, that matches the first pattern, in priority order, matching
    any name. *)
Fixpoint first_profile (names patterns : list string) : option string :=
  match patterns with
  | [] => None
  | pattern :: rest =>
      match filter (Pathlib.fnmatch pattern) names with
      | name :: _ => Some name
      | [] => first_profile names rest
      end
  end.

(** The conversion the specification gives for a Chromium time stamp. *)
Definition chromium_time `{Platform} (stored : Z) : Py.result datetime :=
  fromtimestamp (truediv stored 1000000 - inject_Z 11644473600)%Q.

(** The keys of the dictionary of [get], in insertion order. *)
Definition browser_names : list string :=
  ["chrome"; "firefox"; "edge"; "brave"; "opera"; "vivaldi"; "arc"; "zen"].

(** Where [shutil.copy(src, gettempdir())] writes: under the source's name
    inside the temporary directory. *)
Definition copy_target (w : World) (src : Path) : Path :=
  if OS.is_dir (OS.fs w) (OS.resolve w (OS.tempdir w))
  then Pathlib.child (OS.tempdir w) (Pathlib.name src)
  else OS.tempdir w.

(** Entries in recency order: no entry is later than the one before it. *)
Definition recent_first (a b : HistoryItem) : Prop :=
  (last_visit_time b <= last_visit_time a)%Z.

(** The character [c] occurs in [s]. *)
Fixpoint has_char (c : ascii) (s : string) : bool :=
  match s with
  | EmptyString => false
  | String d s' => Ascii.eqb d c || has_char c s'
  end.

(** The record the search shows when the history file is missing. *)
Definition history_not_found : Main.Item :=
  Main.mkItem "History not found!" "Check your logs for more information."
              None None None [] [].

(** The record [i] opens a page and carries either an icon file of the
    cache [fc] that exists in [w], or the stock icon with its glyph. *)
Definition presents_icon (fc : FaviconCache) (w : World) (i : Main.Item)
  : Prop :=
  Main.JsonRPCAction i = Some Main.browser_open
  /\ ((exists d,
         Main.IcoPath i
         = Some (Main.IconFile
                   (Pathlib.as_posix (FaviconCache.favicon_file fc d)))
         /\ Main.Glyph i = None
         /\ OS.stat (OS.fs w) (OS.resolve w (FaviconCache.favicon_file fc d))
            <> None)
      \/ (Main.IcoPath i = Some Main.ICON_HISTORY
          /\ Main.Glyph i = Some Main.HISTORY_GLYPH)).

Module Scenario.

Import Sample.

(** A Chrome adapter on [/data/History], and a world whose history
    database holds the table [t]; the browser has the file locked. *)
Definition chrome : Browser := Chrome.__init__ (abs ["data"; "History"]).

Definition chrome_world (t : list Sqlite.urls_row) : World :=
  world [ (["tmp"], OS.Dir);
          (["data"], OS.Dir);
          (["data"; "History"],
           OS.File (OS.Database (Sqlite.mkDb (Some t) None None)) true) ]
        offline.

(** 10,001 visits of one page, most recent first. *)
Definition big_table : list Sqlite.urls_row :=
  map (fun i => Sqlite.mkUrl "https://example.com/" (Some "Example")
                             (Z.of_nat i))
      (rev (seq 1 (Z.to_nat 10001))).

(** The row of the specification's scenario, and two others. *)
Definition small_table : list Sqlite.urls_row :=
  [ Sqlite.mkUrl "https://example.com/page" (Some "") 13300000000000000;
    Sqlite.mkUrl "https://www.rocq-prover.org/" (Some "Rocq")
                 13300000000000500;
    Sqlite.mkUrl "https://example.org/" None 13300000000000200 ].

(** The entry built from the scenario's row. *)
Definition page : HistoryItem :=
  HistoryItem.__init__ (H := platform) chrome "https://example.com/page"
                       (Some "") 13300000000000000.

(** The favicon cache of a plugin installed in [/plugins/history]. *)
Definition cache : FaviconCache :=
  mkFaviconCache (abs ["plugins"; "history"; "favicons"]).

Definition png : list Byte.byte := [Byte.x89; Byte.x50; Byte.x4e; Byte.x47].

(** The favicon service knows [example.com] only. *)
Definition online (u : string) : option (list Byte.byte) :=
  if String.eqb u (FaviconCache.favicon_service "example.com")
  then Some png else None.

(** The plugin's world: the history database and an empty cache. *)
Definition plugin_world : World :=
  world [ (["tmp"], OS.Dir);
          (["data"], OS.Dir);
          (["data"; "History"],
           OS.File (OS.Database (Sqlite.mkDb (Some small_table) None None))
                   true);
          (["plugins"], OS.Dir);
          (["plugins"; "history"], OS.Dir);
          (["plugins"; "history"; "favicons"], OS.Dir) ]
        online.

Definition plugin : Main.BrowserHistory :=
  Main.mkBrowserHistory [] "chrome" chrome cache [].

(** The world after the favicon of [example.com] was resolved once. *)
Definition cached_world : World :=
  snd (FaviconCache.get_favicon_path (H := platform) cache
         "https://example.com/page" plugin_world).

(** A cache with two images and a note; the first image cannot be
    deleted. *)
Definition held_png : list string :=
  ["plugins"; "history"; "favicons"; "held.example.png"].
Definition free_png : list string :=
  ["plugins"; "history"; "favicons"; "free.example.png"].
Definition notes_txt : list string :=
  ["plugins"; "history"; "favicons"; "notes.txt"].

Definition cache_world : World :=
  world [ (["plugins"], OS.Dir);
          (["plugins"; "history"], OS.Dir);
          (["plugins"; "history"; "favicons"], OS.Dir);
          (held_png, OS.File (OS.Bytes png) true);
          (free_png, OS.File (OS.Bytes png) false);
          (notes_txt, OS.File (OS.Bytes []) false) ]
        offline.

(** Two profile roots with one release profile each: [profiles] under
    the current directory [/home/user], and [/srv/profiles]. *)
Definition profiles_world : World :=
  world [ (["home"], OS.Dir);
          (["home"; "user"], OS.Dir);
          (["home"; "user"; "profiles"], OS.Dir);
          (["home"; "user"; "profiles"; "foo.default-release"], OS.Dir);
          (["srv"], OS.Dir);
          (["srv"; "profiles"], OS.Dir);
          (["srv"; "profiles"; "foo.default-release"], OS.Dir) ]
        offline.

(** A Firefox adapter on a profile database with two places, one of them
    visited twice, and a visit of a place that is gone. *)
Definition places_db : Sqlite.database :=
  Sqlite.mkDb None
    (Some [ Sqlite.mkPlace 1 "https://rocq-prover.org/" (Some "Rocq");
            Sqlite.mkPlace 2 "https://example.org/" None ])
    (Some [ Sqlite.mkVisit 1 1700000000000000;
            Sqlite.mkVisit 2 1700000001000000;
            Sqlite.mkVisit 1 1700000002000000;
            Sqlite.mkVisit 7 1700000003000000 ]).


Definition firefox_world : World :=
  world [ (["tmp"], OS.Dir);
          (["data"], OS.Dir);
          (["data"; "places.sqlite"], OS.File (OS.Database places_db) true) ]
        offline.

(** A Chrome adapter pointed at that Gecko database. *)
Definition misdirected : Browser :=
  Chrome.__init__ (abs ["data"; "places.sqlite"]).




End Scenario.

(* ===================================================================== *)
(** * Properties                                                          *)
(* ===================================================================== *)

Arguments Py.caught_by : simpl never.

(** Unfold the monad and the effects that neither branch nor fail. *)
Ltac run :=
  unfold bind, ret, raise, call, gets, modify, try_except, try_finally,
    io, self, setattr, OS.logging, OS.path_exists, OS.urlopen in *;
  simpl in *.

(** ** Strings *)

Section StringFacts.
Context `{Platform}.

Lemma lstrip_all_space s : Str.all_space s = true -> Str.lstrip s = "".
Proof.
  induction s as [|c s IH]; simpl; intros Hs; [reflexivity|].
  apply andb_prop in Hs as [Hc Hs]. rewrite Hc. auto.
Qed.

Lemma lstrip_not_all_space s :
  Str.all_space s = false ->
  exists c s', Str.lstrip s = String c s' /\ isspace c = false.
Proof.
  induction s as [|c s IH]; simpl; intros Hs; [discriminate|].
  destruct (isspace c) eqn:Hc; simpl in Hs.
  - apply IH, Hs.
  - exists c, s. split; reflexivity || assumption.
Qed.

Lemma rstrip_keeps_head c s :
  isspace c = false -> Str.truthy (Str.rstrip (String c s)) = true.
Proof.
  intros Hc. simpl. destruct (Str.rstrip s); [rewrite Hc|]; reflexivity.
Qed.

(** [s.strip()] is empty exactly when [s] is white space throughout. *)
Lemma strip_truthy s : Str.truthy (Str.strip s) = negb (Str.all_space s).
Proof.
  unfold Str.strip. destruct (Str.all_space s) eqn:Hs.
  - rewrite (lstrip_all_space _ Hs). reflexivity.
  - destruct (lstrip_not_all_space _ Hs) as (c & s' & -> & Hc).
    apply rstrip_keeps_head, Hc.
Qed.

Lemma all_space_spec s :
  Str.all_space s = true <->
  forall c, In c (list_ascii_of_string s) -> isspace c = true.
Proof.
  induction s as [|c s IH]; simpl.
  - split; [intros _ c []|reflexivity].
  - rewrite andb_true_iff, IH. split.
    + intros [Hc Hs] d [<-|Hd]; auto.
    + intros Hall. split; [apply Hall; auto|]. intros d Hd. apply Hall; auto.
Qed.

Lemma truthy_false s : Str.truthy s = false <-> s = "".
Proof. destruct s; simpl; split; congruence. Qed.

End StringFacts.

(** ** browsers.py: history items *)

Section HistoryItemFacts.
Context `{Platform}.

(** C8: the entry built from a raw row keeps the url; its title is the url
    when the source title is empty or white space only (or NULL), and the
    source title otherwise. *)
Theorem HistoryItem_title_fallback
    (b : Browser) (u : string) (t : option string) (v : Z) :
  title (HistoryItem.__init__ b u t v)
  = match t with
    | Some s => if String.eqb s "" || Str.all_space s then u else s
    | None => u
    end
  /\ url (HistoryItem.__init__ b u t v) = u.
Proof.
  split; [|reflexivity].
  destruct t as [s|]; [|reflexivity]. simpl.
  rewrite strip_truthy, negb_involutive.
  destruct s as [|c s]; [reflexivity|]. reflexivity.
Qed.

(** C1: on an item of a Chromium-family adapter, [timestamp] does not
    return a calendar time: the [datetime] constructor receives a float
    and two strings and raises [TypeError], whatever the stored value.
    The world is left as it was. *)
Theorem timestamp_chromium_raises (item : HistoryItem) (w : World) :
  isinstance (browser item) [Chrome; Edge; Brave; Opera; Vivaldi; Arc] = true ->
  exists msg,
    HistoryItem.timestamp item w = (Py.Raise (Py.mkExc Py.TypeError msg), w).
Proof.
  intros Hc. unfold HistoryItem.timestamp. rewrite Hc.
  eexists. reflexivity.
Qed.

(** The Gecko branch is the conversion the docstring announces: the
    stored microseconds, divided by 1,000,000, go to [fromtimestamp]. *)
Lemma timestamp_gecko_decodes (item : HistoryItem) (w : World) :
  class_of (browser item) = Firefox \/ class_of (browser item) = Zen ->
  HistoryItem.timestamp item w
  = (fromtimestamp (truediv (last_visit_time item) 1000000), w).
Proof.
  intros Hc. unfold HistoryItem.timestamp, isinstance.
  destruct Hc as [-> | ->]; reflexivity.
Qed.

End HistoryItemFacts.

(** ** The file system *)

Lemma parts_eqb_eq a b : Pathlib.parts_eqb a b = true <-> a = b.
Proof.
  revert b. induction a as [|x a IH]; intros [|y b]; simpl;
    try (split; congruence).
  rewrite andb_true_iff, String.eqb_eq, IH. split.
  - intros [-> ->]. reflexivity.
  - intros [= -> ->]. auto.
Qed.

Lemma parts_eqb_refl a : Pathlib.parts_eqb a a = true.
Proof. apply parts_eqb_eq. reflexivity. Qed.

Lemma parts_eqb_neq a b : a <> b -> Pathlib.parts_eqb a b = false.
Proof.
  intros Hne. destruct (Pathlib.parts_eqb a b) eqn:E; [|reflexivity].
  apply parts_eqb_eq in E. contradiction.
Qed.

Lemma lookup_remove_same k f : OS.lookup k (OS.remove k f) = None.
Proof.
  induction f as [|[k' n] f IH]; simpl; [reflexivity|].
  destruct (Pathlib.parts_eqb k' k) eqn:E; simpl; [exact IH|].
  rewrite E. exact IH.
Qed.

Lemma lookup_remove_other k k' f :
  k <> k' -> OS.lookup k' (OS.remove k f) = OS.lookup k' f.
Proof.
  intros Hne. induction f as [|[k0 n] f IH]; simpl; [reflexivity|].
  destruct (Pathlib.parts_eqb k0 k) eqn:E; simpl.
  - apply parts_eqb_eq in E. subst k0.
    rewrite (parts_eqb_neq Hne). exact IH.
  - destruct (Pathlib.parts_eqb k0 k'); [reflexivity|exact IH].
Qed.

Lemma lookup_app k f g :
  OS.lookup k (f ++ g)
  = match OS.lookup k f with
    | Some n => Some n
    | None => OS.lookup k g
    end.
Proof.
  induction f as [|[k' n] f IH]; simpl; [reflexivity|].
  destruct (Pathlib.parts_eqb k' k); [reflexivity|exact IH].
Qed.

Lemma lookup_rebind k k' n f :
  OS.lookup k'
    (map (fun e => if Pathlib.parts_eqb (fst e) k then (k, n) else e) f)
  = if Pathlib.parts_eqb k k'
    then match OS.lookup k f with Some _ => Some n | None => None end
    else OS.lookup k' f.
Proof.
  induction f as [|[k0 n0] f IH]; simpl.
  - destruct (Pathlib.parts_eqb k k'); reflexivity.
  - destruct (Pathlib.parts_eqb k0 k) eqn:E0; simpl.
    + apply parts_eqb_eq in E0. subst k0.
      destruct (Pathlib.parts_eqb k k') eqn:E; [reflexivity|].
      exact IH.
    + rewrite IH. destruct (Pathlib.parts_eqb k k') eqn:E.
      * apply parts_eqb_eq in E. subst k'. rewrite E0. reflexivity.
      * reflexivity.
Qed.

Lemma lookup_store_same k n f : OS.lookup k (OS.store k n f) = Some n.
Proof.
  unfold OS.store. destruct (OS.lookup k f) eqn:E.
  - rewrite lookup_rebind, parts_eqb_refl, E. reflexivity.
  - rewrite lookup_app, E. simpl. rewrite parts_eqb_refl. reflexivity.
Qed.

Lemma lookup_store_other k k' n f :
  k <> k' -> OS.lookup k' (OS.store k n f) = OS.lookup k' f.
Proof.
  intros Hne. unfold OS.store. destruct (OS.lookup k f) eqn:E.
  - rewrite lookup_rebind, (parts_eqb_neq Hne). reflexivity.
  - rewrite lookup_app. simpl. rewrite (parts_eqb_neq Hne).
    destruct (OS.lookup k' f); reflexivity.
Qed.

(** A path that was just written to exists. *)
Lemma stat_store_same k n f : exists m, OS.stat (OS.store k n f) k = Some m.
Proof.
  destruct k as [|x k]; simpl; [eauto|].
  rewrite lookup_store_same. eauto.
Qed.

Lemma stat_remove_other k k' f :
  k <> k' -> OS.stat (OS.remove k f) k' = OS.stat f k'.
Proof.
  intros Hne. destruct k' as [|x k']; simpl; [reflexivity|].
  apply lookup_remove_other, Hne.
Qed.

Lemma stat_remove_same k f : k <> [] -> OS.stat (OS.remove k f) k = None.
Proof.
  intros Hne. destruct k as [|x k]; [contradiction|]. simpl.
  apply lookup_remove_same.
Qed.

(** ** browsers.py: reading a database *)

Section ReaderFacts.
Context `{Platform}.

(** C6: when the source database does not exist, [query_history] raises
    [FileNotFoundError] out of [shutil.copy] before anything is written:
    the world and the reader are unchanged, [temp_path] stays unset, and
    destroying a reader that never copied removes nothing. *)
Theorem query_history_missing_source
    (b : Browser) (w : World) (p : Path) (q : Sqlite.query) (limit : Z) :
  OS.stat (OS.fs w) (OS.resolve w p) = None ->
  Base.query_history p q limit (b, w)
  = (Py.Raise (OS.oserror Py.FileNotFoundError p), (b, w))
  /\ (temp_path b = None -> Base.__del__ (b, w) = (Py.Return tt, (b, w))).
Proof.
  intros Hmissing. split.
  - unfold Base.query_history, Base._copy_database, bind, io, gets,
      OS.shutil_copy. simpl. rewrite Hmissing. reflexivity.
  - intros Hfresh. unfold Base.__del__, bind, self. simpl.
    rewrite Hfresh. reflexivity.
Qed.

End ReaderFacts.

(** ** favicon.py: resolving a favicon *)

Section FaviconFacts.
Context `{Platform}.

Lemma get_domain_run url w :
  FaviconCache._get_domain url w
  = match urlparse url with
    | Some parsed =>
        (Py.Return
           (Some (Str.removeprefix "www."
                    (FaviconCache.or_else (netloc parsed)
                       (hd "" (Str.split "/" (path parsed)))))), w)
    | None =>
        (Py.Return None,
         OS.add_log OS.ERROR ("Error parsing URL " ++ url ++ ": " ++ url) w)
    end.
Proof.
  unfold FaviconCache._get_domain. run.
  destruct (urlparse url); reflexivity.
Qed.

(** Writing fails with a subclass of [OSError] only, and changes nothing. *)
Lemma write_file_raises p c w e w' :
  OS.write_file p c w = (Py.Raise e, w') ->
  Py.caught_by [Py.URLError; Py.OSError; Py.OSError] e = true /\ w' = w.
Proof.
  unfold OS.write_file.
  destruct (OS.stat (OS.fs w) (OS.resolve w p)) as [[c0 [|]|]|];
    try destruct (OS.is_dir _ _); intros [= <- <-]; split; reflexivity.
Qed.

Lemma write_file_returns p c w w' :
  OS.write_file p c w = (Py.Return tt, w') ->
  w' = OS.set_fs (OS.store (OS.resolve w p) (OS.File c false) (OS.fs w)) w.
Proof.
  unfold OS.write_file.
  destruct (OS.stat (OS.fs w) (OS.resolve w p)) as [[c0 [|]|]|];
    try destruct (OS.is_dir _ _); intros [= <-]; reflexivity.
Qed.


(** C7: once a resolution has returned a path, resolving the same URL
    again returns that path and leaves the world as it is: no request is
    made, whatever the network has become in between. *)
Theorem get_favicon_path_idempotent
    (fc : FaviconCache) (url : string) (w w1 : World) (p : string)
    (net' : string -> option (list Byte.byte)) :
  FaviconCache.get_favicon_path fc url w = (Py.Return (Some p), w1) ->
  FaviconCache.get_favicon_path fc url (OS.set_network net' w1)
  = (Py.Return (Some p), OS.set_network net' w1).
Proof.
  unfold FaviconCache.get_favicon_path, bind. rewrite !get_domain_run.
  destruct (urlparse url) as [parsed|]; [|run; discriminate].
  set (d := Str.removeprefix _ _).
  destruct (Str.truthy d); simpl; [|run; discriminate].
  run.
  destruct (OS.stat (OS.fs w) _) as [n|] eqn:Hstat.
  - intros [= <- <-]. simpl. unfold OS.resolve in *. simpl.
    rewrite Hstat. reflexivity.
  - destruct (OS.network w _) as [body|]; [|simpl; discriminate].
    destruct (OS.write_file _ _ _) as [[[]|e] w2] eqn:Hw.
    + intros [= <- <-]. apply write_file_returns in Hw. subst w2.
      simpl. unfold OS.resolve. simpl.
      destruct (stat_store_same
                  (if absolute (FaviconCache.favicon_file fc d)
                   then parts (FaviconCache.favicon_file fc d)
                   else OS.cwd w ++ parts (FaviconCache.favicon_file fc d))
                  (OS.File (OS.Bytes body) false) (OS.fs w)) as [m ->].
      reflexivity.
    + apply write_file_raises in Hw as [-> ->]. simpl. discriminate.
Qed.

(** C9: a URL that [urlparse] rejects, or in which it finds neither a
    network location nor a path (the empty string), resolves to [None]
    without raising; nothing is requested and no file is written. *)
Theorem get_favicon_path_unparsable
    (fc : FaviconCache) (url : string) (w : World) :
  urlparse url = None \/ urlparse url = Some (mkParseResult "" "") ->
  exists w',
    FaviconCache.get_favicon_path fc url w = (Py.Return None, w')
    /\ OS.fs w' = OS.fs w /\ OS.requests w' = OS.requests w.
Proof.
  intros Hurl. unfold FaviconCache.get_favicon_path, bind.
  rewrite get_domain_run.
  destruct Hurl as [-> | ->]; run; eauto.
Qed.

End FaviconFacts.

(** ** sqlite3: ordering and limit *)

Lemma insert_desc_length r l :
  List.length (Sqlite.insert_desc r l) = S (List.length l).
Proof.
  induction l as [|x l IH]; simpl; [reflexivity|].
  destruct (Sqlite.row_time x <? Sqlite.row_time r)%Z; simpl; congruence.
Qed.

Lemma order_by_time_desc_length l :
  List.length (Sqlite.order_by_time_desc l) = List.length l.
Proof.
  induction l as [|r l IH]; simpl; [reflexivity|].
  rewrite insert_desc_length. congruence.
Qed.

Lemma insert_desc_sorted r l :
  Sorted later_first l -> Sorted later_first (Sqlite.insert_desc r l).
Proof.
  induction 1 as [|x l Hs IH Hhd]; simpl.
  - repeat constructor.
  - destruct (Z.ltb_spec (Sqlite.row_time x) (Sqlite.row_time r)).
    + constructor; [constructor; assumption|].
      constructor. unfold later_first. lia.
    + constructor; [exact IH|].
      destruct Hhd as [|y l Hy]; simpl.
      * constructor. unfold later_first. lia.
      * destruct (Z.ltb_spec (Sqlite.row_time y) (Sqlite.row_time r));
          constructor; unfold later_first in *; lia.
Qed.

(** [ORDER BY ... DESC] yields the rows of the table, most recent first. *)
Lemma order_by_time_desc_sorted l :
  Sorted later_first (Sqlite.order_by_time_desc l).
Proof.
  induction l as [|r l IH]; simpl; [constructor|].
  apply insert_desc_sorted, IH.
Qed.

Lemma insert_desc_perm r l : Permutation (r :: l) (Sqlite.insert_desc r l).
Proof.
  induction l as [|x l IH]; simpl; [reflexivity|].
  destruct (Sqlite.row_time x <? Sqlite.row_time r)%Z; [reflexivity|].
  rewrite perm_swap. constructor. exact IH.
Qed.

Lemma order_by_time_desc_perm l :
  Permutation l (Sqlite.order_by_time_desc l).
Proof.
  induction l as [|r l IH]; simpl; [constructor|].
  rewrite <- insert_desc_perm. constructor. exact IH.
Qed.

Lemma limit_rows_length n l :
  (0 <= n)%Z -> (Z.of_nat (List.length (Sqlite.limit_rows n l)) <= n)%Z.
Proof.
  intros Hn. unfold Sqlite.limit_rows.
  destruct (Z.ltb_spec n 0); [lia|].
  rewrite List.length_firstn. lia.
Qed.

Lemma execute_length db q n rows :
  Sqlite.execute db q n = Py.Return rows ->
  (0 <= n)%Z -> (Z.of_nat (List.length rows) <= n)%Z.
Proof.
  unfold Sqlite.execute. destruct (_ || _); [discriminate|].
  destruct (Sqlite.select db q); [|discriminate].
  intros [= <-]. apply limit_rows_length.
Qed.

(** ** browsers.py: the history of an adapter *)

Section HistoryFacts.
Context `{Platform}.

(** The rows [query_history] returns are those of one [execute]. *)
Lemma query_history_returns p q n b w rows s' :
  Base.query_history p q n (b, w) = (Py.Return rows, s') ->
  exists db, Sqlite.execute db q n = Py.Return rows.
Proof.
  unfold Base.query_history, Base._copy_database, OS.sqlite3_connect,
    OS.connection_close, OS.execute_fetchall. run.
  destruct (OS.shutil_copy p (OS.tempdir w) w) as [[t|e] w1]; simpl;
    [|discriminate].
  destruct (OS.stat _ _) as [[[bytes|db] l|]|]; simpl; try discriminate.
  destruct (Sqlite.execute db q n) eqn:E; simpl; [|discriminate].
  intros [= <- <-]. eauto.
Qed.

Lemma get_history_items_run rows b w :
  Base.get_history_items rows (b, w)
  = (Py.Return (map (fun r : Sqlite.row =>
                       let '(u, t, v) := r in HistoryItem.__init__ b u t v)
                    rows), (b, w)).
Proof. reflexivity. Qed.

Lemma history_length b w n items s' :
  history n (b, w) = (Py.Return items, s') ->
  (0 <= n)%Z -> (Z.of_nat (List.length items) <= n)%Z.
Proof.
  unfold history, bind at 1, self. simpl.
  destruct (class_of b) eqn:Hc;
    try (unfold raise; discriminate);
    unfold Chrome.history, Firefox.history, Edge.history, Brave.history,
      Opera.history, Vivaldi.history, Arc.history, bind, self; simpl;
    match goal with
    | |- context [Base.query_history ?p ?q ?n ?s] =>
        destruct (Base.query_history p q n s) as [[rows|e] [b1 w1]] eqn:Hq
    end; try discriminate;
    rewrite get_history_items_run; intros [= <- <-] Hn;
    rewrite List.length_map;
    apply query_history_returns in Hq as [db Hdb];
    eapply execute_length; eauto.
Qed.

(** C2, amended: for a limit [n >= 0], a history that is returned has at
    most [n] entries, hence at most 10,000 when [n] is at most 10,000; the
    adapter sets no bound of its own. *)
Theorem history_at_most_limit
    (b : Browser) (w : World) (n : Z) (items : list HistoryItem)
    (s' : Browser * World) :
  (0 <= n)%Z ->
  history n (b, w) = (Py.Return items, s') ->
  (Z.of_nat (List.length items) <= n)%Z
  /\ ((n <= 10000)%Z -> (Z.of_nat (List.length items) <= 10000)%Z).
Proof.
  intros Hn Hh.
  assert (Z.of_nat (List.length items) <= n)%Z
    by (eapply history_length; eauto).
  split; lia.
Qed.

(** With the limit given, the history of the scenario's Chrome adapter is
    the ordered table cut at the limit, whatever the table. *)
Lemma history_chrome_world t :
  fst (history 20000 (Scenario.chrome, Scenario.chrome_world t))
  = Py.Return
      (map (fun r : Sqlite.row =>
              let '(u, ti, v) := r in
              HistoryItem.__init__
                (set_temp_path (Sample.abs ["tmp"; "History"])
                               Scenario.chrome) u ti v)
           (Sqlite.limit_rows 20000
              (Sqlite.order_by_time_desc (Sqlite.select_urls t)))).
Proof. reflexivity. Qed.

(** A negative limit is no limit: SQLite returns every row. *)
Lemma history_negative_limit t :
  fst (history (-1) (Scenario.chrome, Scenario.chrome_world t))
  = Py.Return
      (map (fun r : Sqlite.row =>
              let '(u, ti, v) := r in
              HistoryItem.__init__
                (set_temp_path (Sample.abs ["tmp"; "History"])
                               Scenario.chrome) u ti v)
           (Sqlite.order_by_time_desc (Sqlite.select_urls t))).
Proof. reflexivity. Qed.

End HistoryFacts.

(** ** main.py: searching the history *)

Lemma prefix_spec a b :
  String.prefix a b = true <-> exists post, b = (a ++ post)%string.
Proof.
  revert b. induction a as [|c a IH]; intros b.
  - split; [intros _; exists b; reflexivity|].
    intros _. destruct b; reflexivity.
  - destruct b as [|d b]; simpl.
    + split; [discriminate|intros [post Hp]; discriminate].
    + destruct (ascii_dec c d) as [->|Hne].
      * rewrite IH. split; intros [post Hp]; exists post; congruence.
      * split; [discriminate|]. intros [post [= Hc _]]. congruence.
Qed.

(** [needle in hay] holds exactly when [needle] occurs inside [hay]. *)
Lemma contains_spec needle hay :
  Str.contains needle hay = true <-> substring needle hay.
Proof.
  unfold substring. induction hay as [|c hay IH].
  - cbn [Str.contains]. rewrite orb_false_r, prefix_spec. split.
    + intros [post Hp]. exists "", post. exact Hp.
    + intros (pre & post & Hp).
      destruct pre; [exists post; exact Hp|discriminate].
  - cbn [Str.contains]. rewrite orb_true_iff, prefix_spec, IH. split.
    + intros [[post Hp]|(pre & post & Hp)].
      * exists "", post. exact Hp.
      * exists (String c pre), post. simpl. congruence.
    + intros (pre & post & Hp). destruct pre as [|d pre].
      * left. exists post. exact Hp.
      * right. exists pre, post. simpl in Hp. congruence.
Qed.




Lemma combine_seq_snd {A} (l : list A) s :
  map snd (combine (seq s (List.length l)) l) = l.
Proof.
  revert s. induction l as [|x l IH]; intros s; simpl; [reflexivity|].
  rewrite IH. reflexivity.
Qed.

Lemma filter_map_snd {A B} (f : B -> bool) (l : list (A * B)) :
  map snd (filter (fun e => f (snd e)) l) = filter f (map snd l).
Proof.
  induction l as [|e l IH]; simpl; [reflexivity|].
  destruct (f (snd e)); simpl; rewrite IH; reflexivity.
Qed.

Section SearchFacts.
Context `{Platform}.

(** The test of [query] is the substring test of the specification. *)
Lemma matches_spec ql item :
  Main.matches ql item = true <->
  substring ql (lower (title item)) \/ substring ql (lower (url item)).
Proof.
  unfold Main.matches. rewrite orb_true_iff, !contains_spec. reflexivity.
Qed.

(** The matching entries of the enumeration are the matching entries, in
    the order of the history. *)
Lemma filter_enumerate ql items :
  map snd (filter (fun e => Main.matches ql (snd e)) (Main.enumerate items))
  = filter (Main.matches ql) items.
Proof.
  rewrite filter_map_snd. unfold Main.enumerate.
  rewrite combine_seq_snd. reflexivity.
Qed.




(** When the adapter raises [FileNotFoundError], the search answers with
    the record "History not found!" instead of raising. *)
Lemma query_history_not_found q bh w e bh1 w1 :
  Main.on_browser (history 10000) (bh, w) = (Py.Raise e, (bh1, w1)) ->
  Py.caught_by [Py.FileNotFoundError] e = true ->
  Main._query q (bh, w)
  = (Py.Return
       (Main._results bh1
        ++ [Main.mkItem "History not found!"
                        "Check your logs for more information."
                        None None None [] []]),
     snd (Main.add_item
            (Main.mkItem "History not found!"
                         "Check your logs for more information."
                         None None None [] []) (bh1, w1))).
Proof.
  intros Hfetch Hc.
  unfold Main._query, Main.query, bind at 1, try_except, bind at 1.
  rewrite Hfetch, Hc. reflexivity.
Qed.

End SearchFacts.

(** ** favicon.py: clearing the cache *)

Lemma fnmatch_literal lit : forall s,
  is_literal lit = true -> Pathlib.fnmatch lit s = String.eqb s lit.
Proof.
  induction lit as [|c lit IH]; intros s Hlit.
  - destruct s; reflexivity.
  - simpl in Hlit. apply andb_prop in Hlit as [Hc Hlit].
    apply andb_prop in Hc as [Hstar Hq].
    apply negb_true_iff in Hstar, Hq. simpl. rewrite Hstar, Hq.
    destruct s as [|d s]; [reflexivity|]. simpl.
    rewrite IH by exact Hlit. rewrite (Ascii.eqb_sym c d). reflexivity.
Qed.

Lemma fnmatch_star_literal lit s :
  is_literal lit = true ->
  Pathlib.fnmatch (String "*" lit) s = Str.endswith s lit.
Proof.
  intros Hlit. induction s as [|d s IH].
  - simpl. rewrite fnmatch_literal by exact Hlit. reflexivity.
  - simpl in *. rewrite IH. rewrite fnmatch_literal by exact Hlit. reflexivity.
Qed.

Lemma resolve_child w p name :
  OS.resolve w (Pathlib.child p name) = OS.resolve w p ++ [name].
Proof.
  unfold OS.resolve, Pathlib.child. simpl.
  destruct (absolute p); [reflexivity|apply app_assoc].
Qed.

Lemma entry_name_spec d k name :
  OS.entry_name d k = Some name <-> k = d ++ [name].
Proof.
  revert k. induction d as [|x d IH]; intros k; simpl.
  - destruct k as [|y [|z k]]; split; try congruence; intros [= ->]; reflexivity.
  - destruct k as [|y k]; [split; congruence|].
    destruct (String.eqb_spec x y) as [->|Hne].
    + rewrite IH. split; congruence.
    + split; congruence.
Qed.

Lemma mem_spec x l : OS.mem x l = true <-> In x l.
Proof.
  induction l as [|y l IH]; simpl; [split; [discriminate|tauto]|].
  rewrite orb_true_iff, String.eqb_eq, IH. tauto.
Qed.

Lemma dedup_in x l : forall seen,
  In x (OS.dedup seen l) <-> In x l /\ OS.mem x seen = false.
Proof.
  induction l as [|y l IH]; intros seen; simpl; [tauto|].
  destruct (OS.mem y seen) eqn:Hy.
  - rewrite IH. split; [tauto|]. intros [[->|Hin] Hx]; [congruence|tauto].
  - simpl. rewrite IH. simpl. rewrite orb_false_iff.
    destruct (String.eqb_spec y x) as [->|Hne].
    + tauto.
    + split; [intros [Heq|[Hin [_ Hs]]]; [contradiction|tauto]|].
      intros [[Heq|Hin] Hs]; [contradiction|]. right. tauto.
Qed.

Lemma dedup_nodup l : forall seen, NoDup (OS.dedup seen l).
Proof.
  induction l as [|y l IH]; intros seen; simpl; [constructor|].
  destruct (OS.mem y seen); [apply IH|].
  constructor; [|apply IH].
  rewrite dedup_in. simpl. rewrite String.eqb_refl. simpl. intros [_ Hf]. discriminate.
Qed.

Lemma names_in_spec d f name :
  In name (OS.names_in d f) <-> exists n, In (d ++ [name], n) f.
Proof.
  induction f as [|[k n] f IH]; simpl.
  - split; [intros []|intros [n []]].
  - destruct (OS.entry_name d k) as [name'|] eqn:E.
    + apply entry_name_spec in E. subst k. simpl. rewrite IH. split.
      * intros [->|[n' Hin]]; [exists n; auto|exists n'; auto].
      * intros [n' [[= Heq ->]|Hin]].
        -- apply app_inj_tail in Heq as [_ ->]. auto.
        -- right. exists n'. exact Hin.
    + rewrite IH. split.
      * intros [n' Hin]. exists n'. auto.
      * intros [n' [[= -> ->]|Hin]].
        -- pose proof (proj2 (entry_name_spec d (d ++ [name]) name) eq_refl).
           congruence.
        -- exists n'. exact Hin.
Qed.

Lemma listdir_spec f d name :
  In name (OS.listdir f d) <-> exists n, In (d ++ [name], n) f.
Proof.
  unfold OS.listdir. rewrite dedup_in, names_in_spec. simpl. tauto.
Qed.

Lemma lookup_none k f :
  OS.lookup k f = None <-> forall n, ~ In (k, n) f.
Proof.
  induction f as [|[k' n'] f IH]; simpl.
  - split; [intros _ n []|reflexivity].
  - destruct (Pathlib.parts_eqb k' k) eqn:E.
    + apply parts_eqb_eq in E. subst k'. split; [discriminate|].
      intros Hn. exfalso. apply (Hn n'). auto.
    + rewrite IH. split.
      * intros Hn n [[= -> ->]|Hin]; [rewrite parts_eqb_refl in E; discriminate|].
        apply (Hn n), Hin.
      * intros Hn n Hin. apply (Hn n). auto.
Qed.

Lemma lookup_remove k k' f :
  OS.lookup k' (OS.remove k f)
  = if Pathlib.parts_eqb k k' then None else OS.lookup k' f.
Proof.
  destruct (Pathlib.parts_eqb k k') eqn:E.
  - apply parts_eqb_eq in E. subst k'. apply lookup_remove_same.
  - apply lookup_remove_other. intros ->. rewrite parts_eqb_refl in E. discriminate.
Qed.

Lemma lookup_remove_all ks : forall f k,
  OS.lookup k (remove_all ks f)
  = if existsb (fun k' => Pathlib.parts_eqb k' k) ks then None else OS.lookup k f.
Proof.
  induction ks as [|k0 ks IH]; intros f k; simpl; [reflexivity|].
  rewrite IH, lookup_remove.
  destruct (Pathlib.parts_eqb k0 k); simpl; [|reflexivity].
  destruct (existsb _ ks); reflexivity.
Qed.

Lemma existsb_parts_eqb k ks :
  existsb (fun k' => Pathlib.parts_eqb k' k) ks = true <-> In k ks.
Proof.
  rewrite existsb_exists. split.
  - intros (k' & Hin & E). apply parts_eqb_eq in E. congruence.
  - intros Hin. exists k. split; [exact Hin|apply parts_eqb_refl].
Qed.

Lemma stat_remove_all_in ks f k :
  In k ks -> k <> [] -> OS.stat (remove_all ks f) k = None.
Proof.
  intros Hin Hne. destruct k as [|x k]; [contradiction|]. simpl.
  rewrite lookup_remove_all.
  rewrite (proj2 (existsb_parts_eqb (x :: k) ks) Hin). reflexivity.
Qed.

Lemma stat_remove_all_out ks f k :
  ~ In k ks -> OS.stat (remove_all ks f) k = OS.stat f k.
Proof.
  intros Hout. destruct k as [|x k]; [reflexivity|]. simpl.
  rewrite lookup_remove_all.
  destruct (existsb _ ks) eqn:E; [|reflexivity].
  apply existsb_parts_eqb in E. contradiction.
Qed.

Lemma in_remove_all e ks : forall f, In e (remove_all ks f) -> In e f.
Proof.
  induction ks as [|k ks IH]; intros f; simpl; [auto|].
  intros Hin. apply IH in Hin. unfold OS.remove in Hin.
  apply filter_In in Hin. tauto.
Qed.

Lemma set_fs_same w : OS.set_fs (OS.fs w) w = w.
Proof. destruct w; reflexivity. Qed.

Lemma take_while_ext_in {A} (f g : A -> bool) l :
  (forall x, In x l -> f x = g x) -> take_while f l = take_while g l.
Proof.
  induction l as [|x l IH]; intros Hfg; simpl; [reflexivity|].
  rewrite <- (Hfg x) by (left; reflexivity).
  destruct (f x); [|reflexivity]. f_equal. apply IH.
  intros y Hy. apply Hfg. right. exact Hy.
Qed.


Lemma take_while_incl {A} (f : A -> bool) l x :
  In x (take_while f l) -> In x l /\ f x = true.
Proof.
  induction l as [|y l IH]; simpl; [tauto|].
  destruct (f y) eqn:E; [|intros []].
  intros [->|Hin]; [auto|]. apply IH in Hin. tauto.
Qed.

Lemma unlink_deletable w p :
  deletable w p = true ->
  OS.unlink p w
  = (Py.Return tt, OS.set_fs (OS.remove (OS.resolve w p) (OS.fs w)) w).
Proof.
  unfold deletable, OS.unlink.
  destruct (OS.stat _ _) as [[c [|]|]|]; intros; congruence.
Qed.

Lemma unlink_not_deletable w p :
  deletable w p = false ->
  exists e, OS.unlink p w = (Py.Raise e, w)
            /\ Py.caught_by [Py.OSError; Py.PermissionError] e = true.
Proof.
  unfold deletable, OS.unlink.
  destruct (OS.stat _ _) as [[c [|]|]|]; intros; try discriminate;
    eexists; split; reflexivity.
Qed.

(** The loop of [clear_cache]: the files are removed in order up to the
    first one that cannot be; the error it raises derives from [OSError]. *)
Lemma unlink_each_run ps : forall w,
  NoDup (map (OS.resolve w) ps) ->
  exists r,
    for_each ps OS.unlink w
    = (r, OS.set_fs (remove_all (map (OS.resolve w)
                                     (take_while (deletable w) ps))
                                (OS.fs w)) w)
    /\ match r with
       | Py.Return _ => take_while (deletable w) ps = ps
       | Py.Raise e =>
           Py.caught_by [Py.OSError; Py.PermissionError] e = true
           /\ take_while (deletable w) ps <> ps
       end.
Proof.
  induction ps as [|p ps IH]; intros w Hnd; simpl.
  - exists (Py.Return tt). rewrite set_fs_same. split; reflexivity.
  - unfold bind. inversion Hnd as [|k ks Hk Hnd']; subst.
    destruct (deletable w p) eqn:Hd.
    + rewrite (unlink_deletable _ _ Hd).
      set (w1 := OS.set_fs (OS.remove (OS.resolve w p) (OS.fs w)) w).
      assert (Hres : forall q, OS.resolve w1 q = OS.resolve w q)
        by reflexivity.
      assert (Hdel : forall q, In q ps -> deletable w1 q = deletable w q).
      { intros q Hq. unfold deletable. rewrite Hres. unfold w1. simpl.
        rewrite stat_remove_other; [reflexivity|].
        intros Heq. apply Hk. rewrite Heq. apply in_map, Hq. }
      destruct (IH w1) as (r & Hrun & Hr).
      { rewrite (map_ext _ _ Hres). exact Hnd'. }
      exists r. rewrite Hrun.
      rewrite (take_while_ext_in _ _ _ Hdel) in *.
      rewrite (map_ext _ _ Hres). split; [reflexivity|].
      destruct r as [[]|e].
      * rewrite Hr. reflexivity.
      * destruct Hr as [Hc Hn]. split; [exact Hc|]. congruence.
    + destruct (unlink_not_deletable _ _ Hd) as (e & -> & Hc).
      exists (Py.Raise e). simpl. rewrite set_fs_same.
      split; [reflexivity|]. split; [exact Hc|discriminate].
Qed.

Lemma nodup_map_inj {A B} (f : A -> B) l x y :
  NoDup (map f l) -> In x l -> In y l -> f x = f y -> x = y.
Proof.
  induction l as [|z l IH]; simpl; [intros _ []|].
  intros Hnd Hx Hy Heq. inversion Hnd as [|? ? Hz Hnd']; subst.
  destruct Hx as [->|Hx], Hy as [->|Hy]; auto.
  - exfalso. apply Hz. rewrite Heq. apply in_map, Hy.
  - exfalso. apply Hz. rewrite <- Heq. apply in_map, Hx.
Qed.

Lemma listdir_nodup f d : NoDup (OS.listdir f d).
Proof. apply dedup_nodup. Qed.

Lemma cached_images_eq fc w :
  cached_images fc w
  = if OS.is_dir (OS.fs w) (OS.resolve w (cache_dir fc))
    then map (Pathlib.child (cache_dir fc))
             (filter (Pathlib.fnmatch "*.png")
                     (OS.listdir (OS.fs w) (OS.resolve w (cache_dir fc))))
    else [].
Proof. reflexivity. Qed.

Lemma cached_images_resolve fc w p :
  In p (cached_images fc w) ->
  exists name,
    p = Pathlib.child (cache_dir fc) name
    /\ OS.resolve w p = OS.resolve w (cache_dir fc) ++ [name]
    /\ Str.endswith name ".png" = true
    /\ In name (OS.listdir (OS.fs w) (OS.resolve w (cache_dir fc))).
Proof.
  rewrite cached_images_eq. destruct (OS.is_dir _ _); [|intros []].
  rewrite in_map_iff. intros (name & <- & Hin).
  apply filter_In in Hin as [Hin Hm].
  rewrite fnmatch_star_literal in Hm by reflexivity.
  exists name. rewrite resolve_child. auto.
Qed.

Lemma cached_images_nodup fc w :
  NoDup (map (OS.resolve w) (cached_images fc w)).
Proof.
  rewrite cached_images_eq. destruct (OS.is_dir _ _); [|constructor].
  rewrite map_map.
  assert (Hnd : NoDup (filter (Pathlib.fnmatch "*.png")
                         (OS.listdir (OS.fs w) (OS.resolve w (cache_dir fc)))))
    by apply NoDup_filter, listdir_nodup.
  induction Hnd as [|name l Hout Hnd IH]; simpl; constructor; [|exact IH].
  rewrite in_map_iff. intros (name' & Heq & Hin).
  rewrite !resolve_child in Heq. apply app_inj_tail in Heq as [_ ->].
  contradiction.
Qed.

Lemma glob_images fc w :
  OS.glob (cache_dir fc) "*.png" w = (Py.Return (cached_images fc w), w).
Proof. reflexivity. Qed.

(** What [clear_cache] does: it never raises; it removes the cached
    images up to the first that cannot be removed, and logs the outcome. *)
Lemma clear_cache_run fc w :
  exists lvl msg,
    FaviconCache.clear_cache fc w
    = (Py.Return tt,
       OS.add_log lvl msg
         (OS.set_fs
            (remove_all
               (map (OS.resolve w)
                    (take_while (deletable w) (cached_images fc w)))
               (OS.fs w)) w))
    /\ (lvl = OS.INFO
        /\ take_while (deletable w) (cached_images fc w) = cached_images fc w
        \/ lvl = OS.ERROR
        /\ take_while (deletable w) (cached_images fc w)
           <> cached_images fc w).
Proof.
  unfold FaviconCache.clear_cache, try_except, bind at 1.
  rewrite glob_images. unfold bind.
  destruct (unlink_each_run (cached_images fc w) w
              (cached_images_nodup fc w)) as (r & -> & Hr).
  destruct r as [[]|e].
  - do 2 eexists. split; [reflexivity|]. left. auto.
  - destruct Hr as [-> Hn]. do 2 eexists. split; [reflexivity|]. right. auto.
Qed.

Lemma filter_nil {A} (f : A -> bool) l :
  (forall x, In x l -> f x = false) -> filter f l = [].
Proof.
  induction l as [|x l IH]; intros Hf; simpl; [reflexivity|].
  rewrite (Hf x) by (left; reflexivity). apply IH.
  intros y Hy. apply Hf. right. exact Hy.
Qed.


(** Once every cached image is removed, the cache lists none. *)
Lemma cached_images_after_removal fc w w' :
  OS.cwd w' = OS.cwd w ->
  OS.fs w' = remove_all (map (OS.resolve w) (cached_images fc w)) (OS.fs w) ->
  cached_images fc w' = [].
Proof.
  intros Hcwd Hfs.
  assert (Hres : forall q, OS.resolve w' q = OS.resolve w q).
  { intros q. unfold OS.resolve. rewrite Hcwd. reflexivity. }
  rewrite (cached_images_eq fc w'), Hres.
  destruct (OS.is_dir (OS.fs w) (OS.resolve w (cache_dir fc))) eqn:Hd.
  - destruct (OS.is_dir (OS.fs w') _); [|reflexivity].
    rewrite filter_nil; [reflexivity|].
    intros name Hin.
    destruct (Pathlib.fnmatch "*.png" name) eqn:Hm; [exfalso|reflexivity].
    apply listdir_spec in Hin as [n Hin]. rewrite Hfs in Hin.
    assert (Hold : In name (OS.listdir (OS.fs w)
                              (OS.resolve w (cache_dir fc)))).
    { apply listdir_spec. exists n. eapply in_remove_all, Hin. }
    assert (Himg : In (OS.resolve w (cache_dir fc) ++ [name])
                      (map (OS.resolve w) (cached_images fc w))).
    { rewrite <- resolve_child. apply in_map.
      rewrite cached_images_eq, Hd. apply in_map, filter_In. auto. }
    assert (Hnone : OS.lookup (OS.resolve w (cache_dir fc) ++ [name])
                      (remove_all (map (OS.resolve w) (cached_images fc w))
                                  (OS.fs w)) = None).
    { rewrite lookup_remove_all.
      rewrite (proj2 (existsb_parts_eqb _ _) Himg). reflexivity. }
    eapply lookup_none in Hnone. apply Hnone, Hin.
  - rewrite cached_images_eq, Hd in Hfs. simpl in Hfs.
    rewrite Hfs, Hd. reflexivity.
Qed.

(** C4, amended: [clear_cache] never raises.  It deletes the cached images
    in listing order up to the first one whose deletion fails; that error
    is logged and ends the clearing, so every other path, the images
    listed after the failing one included, is left as it was.  When no
    deletion fails, the cache directory lists no image afterwards. *)
Theorem clear_cache_stops_at_first_error (fc : FaviconCache) (w : World) :
  exists w',
    FaviconCache.clear_cache fc w = (Py.Return tt, w')
    /\ (forall p, In p (take_while (deletable w) (cached_images fc w)) ->
        OS.stat (OS.fs w') (OS.resolve w p) = None)
    /\ (forall k,
        ~ In k (map (OS.resolve w)
                    (take_while (deletable w) (cached_images fc w))) ->
        OS.stat (OS.fs w') k = OS.stat (OS.fs w) k)
    /\ (forall p,
        In p (cached_images fc w) ->
        ~ In p (take_while (deletable w) (cached_images fc w)) ->
        OS.stat (OS.fs w') (OS.resolve w p)
        = OS.stat (OS.fs w) (OS.resolve w p))
    /\ (take_while (deletable w) (cached_images fc w) = cached_images fc w ->
        cached_images fc w' = [])
    /\ (take_while (deletable w) (cached_images fc w) <> cached_images fc w ->
        exists msg, OS.log w' = (OS.ERROR, msg) :: OS.log w).
Proof.
  destruct (clear_cache_run fc w) as (lvl & msg & Hrun & Hlvl).
  eexists. split; [exact Hrun|].
  set (gone := take_while (deletable w) (cached_images fc w)) in *.
  split; [|split; [|split; [|split]]].
  - intros p Hp. simpl. apply stat_remove_all_in; [apply in_map, Hp|].
    apply take_while_incl in Hp as [Hp _].
    apply cached_images_resolve in Hp as (name & _ & -> & _).
    intros Heq. symmetry in Heq. apply app_cons_not_nil in Heq. exact Heq.
  - intros k Hk. simpl. apply stat_remove_all_out, Hk.
  - intros p Hp Hkept. simpl. apply stat_remove_all_out.
    rewrite in_map_iff. intros (q & Heq & Hq). apply Hkept.
    pose proof (take_while_incl _ _ _ Hq) as [Hq' _].
    assert (q = p) as <-
      by (eapply nodup_map_inj; eauto using cached_images_nodup).
    exact Hq.
  - intros Hall.
    eapply cached_images_after_removal with (w := w); [reflexivity|].
    simpl. rewrite Hall. reflexivity.
  - intros Hsome. destruct Hlvl as [[_ Hall]|[-> _]]; [contradiction|].
    exists msg. reflexivity.
Qed.

(** C10: [clear_cache] leaves every path alone that is not an entry of the
    cache directory with a name ending in [.png]: entries of the cache
    directory with another extension, and everything outside it. *)
Theorem clear_cache_frame
    (fc : FaviconCache) (w : World) (k : list string) :
  is_cached_image fc w k = false ->
  OS.stat (OS.fs (snd (FaviconCache.clear_cache fc w))) k
  = OS.stat (OS.fs w) k.
Proof.
  intros Hk. destruct (clear_cache_run fc w) as (lvl & msg & -> & _). simpl.
  apply stat_remove_all_out. rewrite in_map_iff. intros (p & <- & Hp).
  apply take_while_incl in Hp as [Hp _].
  apply cached_images_resolve in Hp as (name & _ & Hres & Hend & _).
  unfold is_cached_image in Hk. rewrite Hres in Hk.
  rewrite (proj2 (entry_name_spec _ _ _) eq_refl) in Hk. congruence.
Qed.

(** ** browsers.py: locating a Gecko profile *)

Lemma find_database_from_run root w pats :
  Firefox.find_database_from root pats w
  = match first_profile (entries w root) pats with
    | Some name =>
        (Py.Return
           (Pathlib.joinpath
              (Pathlib.joinpath root (Pathlib.child root name))
              (Pathlib.of_string "places.sqlite")), w)
    | None =>
        (Py.Raise (Py.mkExc Py.FileNotFoundError
                     ("No Firefox/Zen profile found in "
                      ++ Pathlib.as_posix root)), w)
    end.
Proof.
  induction pats as [|pat pats IH]; simpl; [reflexivity|].
  unfold bind, OS.glob, entries in *.
  destruct (OS.is_dir _ _).
  - destruct (filter (Pathlib.fnmatch pat) _) as [|name l]; simpl;
      [exact IH|reflexivity].
  - simpl. exact IH.
Qed.


(** Under a relative root the root is joined twice: the glob result already
    starts with it. *)
Lemma find_database_from_relative root w :
  absolute root = false ->
  Firefox.find_database root w
  = match first_profile (entries w root) Firefox.patterns with
    | Some name =>
        (Py.Return
           (mkPath false
                   ((parts root ++ parts root ++ [name])
                    ++ ["places.sqlite"])), w)
    | None =>
        (Py.Raise (Py.mkExc Py.FileNotFoundError
                     ("No Firefox/Zen profile found in "
                      ++ Pathlib.as_posix root)), w)
    end.
Proof.
  intros Hrel. unfold Firefox.find_database. rewrite find_database_from_run.
  destruct (first_profile _ _) as [name|]; [|reflexivity].
  unfold Pathlib.joinpath, Pathlib.child. simpl. rewrite Hrel. reflexivity.
Qed.

(* ===================================================================== *)
(** * Further properties of the code                                      *)
(* ===================================================================== *)

(** ** browsers.py: [get] and the default locations *)

Lemma fold_joinpath_relative segs : forall p,
  Forall (fun q => absolute q = false) segs ->
  fold_left Pathlib.joinpath segs p
  = mkPath (absolute p) (parts p ++ flat_map parts segs).
Proof.
  induction segs as [|q segs IH]; intros p Hrel; simpl.
  - rewrite app_nil_r. destruct p; reflexivity.
  - inversion Hrel as [|? ? Hq Hrest]; subst. rewrite IH by exact Hrest.
    unfold Pathlib.joinpath. rewrite Hq. simpl.
    rewrite app_assoc. reflexivity.
Qed.

Lemma joinpath_empty q : Pathlib.joinpath (mkPath false []) q = q.
Proof. unfold Pathlib.joinpath. destruct q as [[|] ps]; reflexivity. Qed.

(** [Path(base, s1, ..., sn)] for relative segments: they are appended. *)
Lemma Path_of_relative base segs :
  Forall (fun q => absolute q = false) (map Pathlib.of_string segs) ->
  Path_of (base :: segs)
  = mkPath (absolute (Pathlib.of_string base))
           (parts (Pathlib.of_string base)
            ++ flat_map parts (map Pathlib.of_string segs)).
Proof.
  intros Hrel. unfold Path_of. simpl. rewrite joinpath_empty.
  apply fold_joinpath_relative, Hrel.
Qed.

Section GetFacts.
Context `{Platform}.

Lemma dict_get_browsers_none name :
  ~ In name browser_names -> dict_get browsers name = None.
Proof.
  intros Hout. unfold browsers, dict_get.
  repeat match goal with
  | |- context [String.eqb ?k name] =>
      destruct (String.eqb_spec k name) as [Heq|_];
      [exfalso; apply Hout; rewrite <- Heq; simpl; tauto|]
  end.
  reflexivity.
Qed.

(** X1: [get] is an exact, case-sensitive lookup: a name that is not one
    of the eight keys raises [ValueError], the message quotes the name and
    lists the keys in order, and the world is untouched. *)
Theorem get_unknown_browser (name : string) (w : World) :
  ~ In name browser_names ->
  get name w
  = (Py.Raise
       (Py.mkExc Py.ValueError
          ("Invalid browser name: '" ++ name ++ "'. "
           ++ "Valid options: "
           ++ "chrome, firefox, edge, brave, opera, vivaldi, arc, zen")),
     w).
Proof.
  intros Hout. unfold get. rewrite dict_get_browsers_none by exact Hout.
  reflexivity.
Qed.

(** X2: for the six Chromium-family names [get] cannot fail and reads
    nothing: it returns an adapter of the class named, with no temporary
    copy yet and a database path that ends in [History], whether or not
    that file exists. *)
Theorem get_chromium_adapter (name : string) (w : World) :
  In name ["chrome"; "edge"; "brave"; "opera"; "vivaldi"; "arc"] ->
  exists b,
    get name w = (Py.Return b, w)
    /\ Sample.lower (class_name (class_of b)) = name
    /\ isinstance b [Chrome; Edge; Brave; Opera; Vivaldi; Arc] = true
    /\ temp_path b = None
    /\ Pathlib.name (database_path b) = "History".
Proof.
  intros Hin. simpl in Hin.
  repeat (destruct Hin as [<-|Hin]); try contradiction;
    (eexists; split; [reflexivity|]; repeat split;
     simpl;
     unfold CHROME_DIR, EDGE_DIR, BRAVE_DIR, OPERA_DIR, VIVALDI_DIR,
       ARC_DIR;
     rewrite Path_of_relative by (repeat constructor);
     unfold Pathlib.name; cbn [parts flat_map];
     match goal with
     | |- last (?a ++ ?l) _ = _ =>
         change l with (removelast l ++ ["History"]); cbn [removelast];
         rewrite app_assoc; apply last_last
     end).
Qed.

(** X3: the plugin lower-cases the configured browser (["chrome"] when the
    setting is absent) and hands it to [get]; a name that is then not a
    key makes the constructor raise [ValueError] before the favicon cache
    is created. *)
Theorem main_init_invalid_browser
    (settings : list (string * string)) (w : World) :
  ~ In (lower (match dict_get settings "default_browser" with
               | Some v => v
               | None => Main.DEFAULT_BROWSER
               end)) browser_names ->
  exists msg,
    Main.__init__ settings w = (Py.Raise (Py.mkExc Py.ValueError msg), w).
Proof.
  intros Hout. unfold Main.__init__, bind, get.
  rewrite dict_get_browsers_none by exact Hout.
  eexists. reflexivity.
Qed.

End GetFacts.

(** ** browsers.py: the reader and its temporary copy *)

Lemma shutil_copy_raises src dst w e w' :
  OS.shutil_copy src dst w = (Py.Raise e, w') -> w' = w.
Proof.
  unfold OS.shutil_copy.
  destruct (OS.stat (OS.fs w) (OS.resolve w src)) as [[c l|]|];
    try (intros [= _ <-]; reflexivity).
  destruct (Pathlib.parts_eqb _ _); [intros [= _ <-]; reflexivity|].
  destruct (OS.write_file _ _ _) as [[[]|e'] w2] eqn:Hw; [discriminate|].
  apply write_file_raises in Hw as [_ ->]. intros [= _ <-]. reflexivity.
Qed.

Lemma shutil_copy_returns src w t w' :
  OS.shutil_copy src (OS.tempdir w) w = (Py.Return t, w') ->
  t = copy_target w src
  /\ OS.resolve w src <> OS.resolve w t
  /\ exists c l,
       OS.stat (OS.fs w) (OS.resolve w src) = Some (OS.File c l)
       /\ w' = OS.set_fs (OS.store (OS.resolve w t) (OS.File c false)
                                   (OS.fs w)) w.
Proof.
  unfold OS.shutil_copy. fold (copy_target w src).
  destruct (OS.stat (OS.fs w) (OS.resolve w src)) as [[c l|]|];
    try discriminate.
  destruct (Pathlib.parts_eqb _ _) eqn:E; [discriminate|].
  destruct (OS.write_file _ _ _) as [[[]|e'] w2] eqn:Hw; [|discriminate].
  intros [= <- <-]. apply write_file_returns in Hw.
  split; [reflexivity|]. split.
  - intros Heq. rewrite Heq, parts_eqb_refl in E. discriminate.
  - exists c, l. auto.
Qed.

Lemma stat_store_other k k' n f :
  k <> k' -> OS.stat (OS.store k n f) k' = OS.stat f k'.
Proof.
  intros Hne. destruct k' as [|x k']; [reflexivity|]. simpl.
  apply lookup_store_other, Hne.
Qed.

Lemma stat_store_written k n f :
  k <> [] -> OS.stat (OS.store k n f) k = Some n.
Proof.
  intros Hne. destruct k as [|x k]; [contradiction|]. simpl.
  apply lookup_store_same.
Qed.

(** A file can only be written at a path with a name. *)
Lemma write_file_target p c w w' :
  OS.write_file p c w = (Py.Return tt, w') -> OS.resolve w p <> [].
Proof.
  unfold OS.write_file. intros Hw Hnil. rewrite Hnil in Hw. simpl in Hw.
  discriminate.
Qed.

Section ReaderProperties.
Context `{Platform}.

Lemma query_history_run p q n b w :
  Base.query_history p q n (b, w)
  = match OS.shutil_copy p (OS.tempdir w) w with
    | (Py.Return t, w1) =>
        (fst (OS.execute_fetchall (OS.mkConnection t) q n w1),
         (set_temp_path t b, w1))
    | (Py.Raise e, w1) => (Py.Raise e, (b, w1))
    end.
Proof.
  unfold Base.query_history, Base._copy_database, OS.sqlite3_connect,
    OS.connection_close. run.
  destruct (OS.shutil_copy p (OS.tempdir w) w) as [[t|e] w1]; simpl;
    [|reflexivity].
  unfold OS.execute_fetchall.
  destruct (OS.stat _ _) as [[[bytes|db] l|]|]; simpl; try reflexivity.
  destruct (Sqlite.execute db q n); reflexivity.
Qed.

Lemma query_history_inv
    (p : Path) (q : Sqlite.query) (n : Z) (b b1 : Browser) (w w1 : World)
    (rows : list Sqlite.row) :
  Base.query_history p q n (b, w) = (Py.Return rows, (b1, w1)) ->
  exists db l,
    OS.stat (OS.fs w) (OS.resolve w p) = Some (OS.File (OS.Database db) l)
    /\ Sqlite.execute db q n = Py.Return rows
    /\ temp_path b1 = Some (copy_target w p)
    /\ OS.stat (OS.fs w1) (OS.resolve w (copy_target w p))
       = Some (OS.File (OS.Database db) false).
Proof.
  rewrite query_history_run.
  destruct (OS.shutil_copy p (OS.tempdir w) w) as [[t|e] w2] eqn:Hcopy;
    [|discriminate].
  pose proof Hcopy as Hc.
  apply shutil_copy_returns in Hc as (-> & Hne & c & l & Hsrc & ->).
  assert (Hk : OS.resolve w (copy_target w p) <> []).
  { unfold OS.shutil_copy in Hcopy. fold (copy_target w p) in Hcopy.
    rewrite Hsrc in Hcopy.
    destruct (Pathlib.parts_eqb _ _); [discriminate|].
    destruct (OS.write_file _ _ _) as [[[]|e'] w3] eqn:Hw; [|discriminate].
    eapply write_file_target, Hw. }
  unfold OS.execute_fetchall. simpl.
  change (OS.resolve (OS.set_fs ?f w) ?x) with (OS.resolve w x).
  rewrite stat_store_written by exact Hk.
  destruct c as [bytes|db]; [discriminate|]. simpl.
  intros [= Hex <- <-]. exists db, l. repeat split; auto.
  simpl. apply stat_store_written, Hk.
Qed.

(** X4: the rows [query_history] returns are the result of the query on
    the database stored at the source path; the copy it read them from
    holds that same database, lies in the temporary directory under the
    source's name, and is what [temp_path] now names. *)
Theorem query_history_reads_snapshot
    (p : Path) (q : Sqlite.query) (n : Z) (b b1 : Browser) (w w1 : World)
    (rows : list Sqlite.row) :
  Base.query_history p q n (b, w) = (Py.Return rows, (b1, w1)) ->
  exists db l,
    OS.stat (OS.fs w) (OS.resolve w p) = Some (OS.File (OS.Database db) l)
    /\ Sqlite.execute db q n = Py.Return rows
    /\ temp_path b1 = Some (copy_target w p)
    /\ OS.stat (OS.fs w1) (OS.resolve w (copy_target w p))
       = Some (OS.File (OS.Database db) false).
Proof. apply query_history_inv. Qed.

(** X5: whatever its outcome, [query_history] writes nowhere but at the
    place of the temporary copy: every other path keeps its node, the
    source database among them, and nothing is requested or logged. *)
Theorem query_history_frame
    (p : Path) (q : Sqlite.query) (n : Z) (b : Browser) (w : World) :
  (forall k,
     k <> OS.resolve w (copy_target w p) ->
     OS.stat (OS.fs (snd (snd (Base.query_history p q n (b, w))))) k
     = OS.stat (OS.fs w) k)
  /\ OS.stat (OS.fs (snd (snd (Base.query_history p q n (b, w)))))
             (OS.resolve w p)
     = OS.stat (OS.fs w) (OS.resolve w p)
  /\ OS.requests (snd (snd (Base.query_history p q n (b, w))))
     = OS.requests w
  /\ OS.log (snd (snd (Base.query_history p q n (b, w)))) = OS.log w.
Proof.
  rewrite query_history_run.
  destruct (OS.shutil_copy p (OS.tempdir w) w) as [[t|e] w2] eqn:Hcopy.
  - apply shutil_copy_returns in Hcopy as (-> & Hne & c & l & _ & ->).
    cbn [fst snd OS.fs OS.set_fs OS.requests OS.log].
    split; [|split; [|split; reflexivity]].
    + intros k Hk. apply stat_store_other. congruence.
    + apply stat_store_other. congruence.
  - apply shutil_copy_raises in Hcopy as ->. cbn [fst snd]. auto.
Qed.

Lemma del_run b w :
  Base.__del__ (b, w)
  = (Py.Return tt,
     (b, match temp_path b with
         | Some p =>
             if deletable w p
             then OS.set_fs (OS.remove (OS.resolve w p) (OS.fs w)) w
             else w
         | None => w
         end)).
Proof.
  unfold Base.__del__, bind, self. cbn [fst snd].
  destruct (temp_path b) as [p|]; [|reflexivity].
  unfold try_except, io. cbn [fst snd].
  destruct (deletable w p) eqn:Hd.
  - rewrite (unlink_deletable _ _ Hd). reflexivity.
  - destruct (unlink_not_deletable _ _ Hd) as (e & -> & Hc).
    assert (Hc' : Py.caught_by [Py.OSError; Py.FileNotFoundError] e = true).
    { revert Hc. unfold Py.caught_by. simpl.
      destruct (Py.exc_type e); simpl; congruence. }
    rewrite Hc'. reflexivity.
Qed.

(** X6: [__del__] never raises.  With no temporary copy recorded it does
    nothing; otherwise it removes the copy when that is a file it can
    delete, swallows the error when it is not, and touches no other path. *)
Theorem del_never_raises (b : Browser) (w : World) :
  exists w',
    Base.__del__ (b, w) = (Py.Return tt, (b, w'))
    /\ (forall p, temp_path b = Some p -> deletable w p = true ->
        OS.resolve w p <> [] ->
        OS.stat (OS.fs w') (OS.resolve w p) = None)
    /\ (forall k, temp_path b <> None ->
        (forall p, temp_path b = Some p -> k <> OS.resolve w p) ->
        OS.stat (OS.fs w') k = OS.stat (OS.fs w) k)
    /\ (temp_path b = None -> w' = w).
Proof.
  rewrite del_run. eexists. split; [reflexivity|].
  destruct (temp_path b) as [p|].
  - split; [|split].
    + intros p' [= <-] Hd Hne. rewrite Hd. simpl.
      apply stat_remove_same, Hne.
    + intros k _ Hk. destruct (deletable w p); [|reflexivity]. simpl.
      apply stat_remove_other. intros Heq. apply (Hk p eq_refl). auto.
    + discriminate.
  - split; [discriminate|]. split; [congruence|reflexivity].
Qed.

Lemma remove_unbound k f : OS.lookup k f = None -> OS.remove k f = f.
Proof.
  induction f as [|[k' n] f IH]; simpl; [reflexivity|].
  destruct (Pathlib.parts_eqb k' k); [discriminate|]. simpl.
  intros Hf. rewrite IH by exact Hf. reflexivity.
Qed.

Lemma remove_store_fresh k n f :
  OS.lookup k f = None -> OS.remove k (OS.store k n f) = f.
Proof.
  intros Hk. unfold OS.store. rewrite Hk. unfold OS.remove.
  rewrite filter_app. simpl. rewrite parts_eqb_refl. simpl.
  rewrite app_nil_r. apply remove_unbound, Hk.
Qed.

(** X7: a read followed by the destruction of a fresh reader leaves the
    file system exactly as it was, whether the read succeeded or failed,
    provided no file of the copy's name was in the temporary directory
    before. *)
Theorem query_then_del_restores
    (p : Path) (q : Sqlite.query) (n : Z) (b : Browser) (w : World) :
  temp_path b = None ->
  OS.stat (OS.fs w) (OS.resolve w (copy_target w p)) = None ->
  exists w2,
    Base.__del__ (snd (Base.query_history p q n (b, w)))
    = (Py.Return tt, (fst (snd (Base.query_history p q n (b, w))), w2))
    /\ OS.fs w2 = OS.fs w.
Proof.
  intros Hfresh Hfree. rewrite query_history_run.
  destruct (OS.shutil_copy p (OS.tempdir w) w) as [[t|e] w1] eqn:Hcopy.
  - apply shutil_copy_returns in Hcopy as (-> & _ & c & l & _ & ->).
    cbn [fst snd]. rewrite del_run. eexists. split; [reflexivity|].
    set (k := OS.resolve w (copy_target w p)) in *.
    assert (Hk : k <> []) by (intros Hnil; rewrite Hnil in Hfree; discriminate).
    assert (Hl : OS.lookup k (OS.fs w) = None).
    { destruct k; [contradiction|exact Hfree]. }
    cbn [temp_path set_temp_path]. unfold deletable.
    change (OS.resolve (OS.set_fs ?f w) ?x) with (OS.resolve w x).
    fold k. cbn [OS.fs OS.set_fs].
    rewrite stat_store_written by exact Hk. cbn [OS.fs OS.set_fs].
    apply remove_store_fresh, Hl.
  - apply shutil_copy_raises in Hcopy as ->. cbn [fst snd].
    rewrite del_run, Hfresh. eexists. split; reflexivity.
Qed.

Lemma Sorted_firstn {A} (R : A -> A -> Prop) l : forall n,
  Sorted R l -> Sorted R (firstn n l).
Proof.
  induction l as [|x l IH]; intros [|n] Hs; simpl; try constructor.
  - apply IH. inversion Hs; assumption.
  - inversion Hs as [|? ? Hl Hhd]; subst.
    destruct l as [|y l]; destruct n; simpl; constructor.
    inversion Hhd; assumption.
Qed.

Lemma Sorted_map {A B} (R : A -> A -> Prop) (S : B -> B -> Prop)
    (f : A -> B) l :
  (forall a b, R a b -> S (f a) (f b)) ->
  Sorted R l -> Sorted S (map f l).
Proof.
  intros Hf. induction 1 as [|x l Hl IH Hhd]; simpl; constructor; auto.
  destruct Hhd; simpl; constructor; auto.
Qed.

Lemma execute_sorted db q n rows :
  Sqlite.execute db q n = Py.Return rows -> Sorted later_first rows.
Proof.
  unfold Sqlite.execute. destruct (_ || _); [discriminate|].
  destruct (Sqlite.select db q) as [l|] eqn:Hsel; [|discriminate].
  intros [= <-].
  assert (Hs : Sorted later_first l).
  { unfold Sqlite.select in Hsel. destruct q.
    - destruct (Sqlite.urls db); [|discriminate].
      injection Hsel as <-. apply order_by_time_desc_sorted.
    - destruct (Sqlite.moz_places db), (Sqlite.moz_historyvisits db);
        try discriminate.
      injection Hsel as <-. apply order_by_time_desc_sorted. }
  unfold Sqlite.limit_rows. destruct (n <? 0)%Z; [exact Hs|].
  apply Sorted_firstn, Hs.
Qed.

(** What [history] returns, by the class of the adapter. *)
Lemma history_run b w n :
  history n (b, w)
  = match class_of b with
    | Base =>
        (Py.Raise (Py.mkExc Py.AttributeError
                     "'Base' object has no attribute 'history'"), (b, w))
    | c =>
        match Base.query_history (database_path b)
                (match c with
                 | Firefox | Zen => Sqlite.SELECT_moz_places
                 | _ => Sqlite.SELECT_urls
                 end) n (b, w) with
        | (Py.Return rows, (b1, w1)) =>
            (Py.Return
               (map (fun r : Sqlite.row =>
                       let '(u, t, v) := r in HistoryItem.__init__ b1 u t v)
                    rows), (b1, w1))
        | (Py.Raise e, s1) => (Py.Raise e, s1)
        end
    end.
Proof.
  unfold history, bind at 1, self. cbn [fst snd].
  destruct (class_of b); try reflexivity;
    unfold Chrome.history, Firefox.history, Edge.history, Brave.history,
      Opera.history, Vivaldi.history, Arc.history, bind, self; cbn [fst snd];
    match goal with
    | |- context [Base.query_history ?p ?q ?n ?s] =>
        destruct (Base.query_history p q n s) as [[rows|e] [b1 w1]]
    end; reflexivity.
Qed.

(** X8: every adapter returns its entries most recent first. *)
Theorem history_most_recent_first
    (b : Browser) (w : World) (n : Z) (items : list HistoryItem)
    (s' : Browser * World) :
  history n (b, w) = (Py.Return items, s') ->
  Sorted recent_first items.
Proof.
  rewrite history_run.
  destruct (class_of b); try discriminate;
    match goal with
    | |- context [Base.query_history ?p ?q ?n ?s] =>
        destruct (Base.query_history p q n s) as [[rows|e] [b1 w1]] eqn:Hq
    end; try discriminate;
    intros [= <- <-];
    apply query_history_returns in Hq as [db Hdb];
    apply execute_sorted in Hdb;
    (eapply Sorted_map; [|exact Hdb]);
    intros [[u t] v] [[u' t'] v'] Hr; exact Hr.
Qed.

Lemma In_firstn {A} (x : A) l : forall n, In x (firstn n l) -> In x l.
Proof.
  induction l as [|y l IH]; intros [|n]; simpl; try tauto.
  intros [->|Hin]; [auto|]. right. eapply IH, Hin.
Qed.

Lemma In_limit_rows r n l : In r (Sqlite.limit_rows n l) -> In r l.
Proof.
  unfold Sqlite.limit_rows. destruct (n <? 0)%Z; [auto|apply In_firstn].
Qed.

Lemma limit_rows_count n l :
  (0 <= n)%Z ->
  Z.of_nat (List.length (Sqlite.limit_rows n l))
  = Z.min n (Z.of_nat (List.length l)).
Proof.
  intros Hn. unfold Sqlite.limit_rows.
  destruct (Z.ltb_spec n 0); [lia|]. rewrite List.length_firstn. lia.
Qed.


(** X9: a Chromium-family adapter returns entries of the [urls] table of the
    database at its path and no others: each is built from a row of the
    table, and for a limit [n >= 0] there are exactly [min n rows] of them. *)
Theorem history_chromium_entries
    (b b1 : Browser) (w w1 : World) (n : Z) (items : list HistoryItem) :
  isinstance b [Chrome; Edge; Brave; Opera; Vivaldi; Arc] = true ->
  history n (b, w) = (Py.Return items, (b1, w1)) ->
  exists db l t,
    OS.stat (OS.fs w) (OS.resolve w (database_path b))
    = Some (OS.File (OS.Database db) l)
    /\ Sqlite.urls db = Some t
    /\ ((0 <= n)%Z ->
        Z.of_nat (List.length items) = Z.min n (Z.of_nat (List.length t)))
    /\ (forall i, In i items ->
        exists u, In u t
                  /\ i = HistoryItem.__init__ b1 (Sqlite.url u)
                           (Sqlite.title u) (Sqlite.last_visit_time u)).
Proof.
  intros Hc. rewrite history_run. unfold isinstance in Hc.
  destruct (class_of b); simpl in Hc; try discriminate Hc;
    (destruct (Base.query_history (database_path b) Sqlite.SELECT_urls n
                 (b, w)) as [[rows|e] [b2 w2]] eqn:Hq; [|discriminate];
     intros [= <- <- <-];
     apply query_history_inv in Hq
       as (db & l & Hsrc & Hex & _ & _);
     unfold Sqlite.execute in Hex;
     destruct (_ || _); [discriminate|];
     unfold Sqlite.select in Hex;
     destruct (Sqlite.urls db) as [t|] eqn:Ht; [|discriminate];
     injection Hex as <-;
     exists db, l, t; split; [exact Hsrc|]; split; [exact Ht|]; split;
     [ intros Hn; rewrite List.length_map, limit_rows_count by exact Hn;
       rewrite order_by_time_desc_length; unfold Sqlite.select_urls;
       rewrite List.length_map; reflexivity
     | intros i Hi; apply in_map_iff in Hi as ([[u' t'] v'] & <- & Hr);
       apply In_limit_rows in Hr;
       apply (Permutation_in _ (Permutation_sym
                (order_by_time_desc_perm _))) in Hr;
       apply in_map_iff in Hr as (u & [= <- <- <-] & Hu);
       exists u; auto ]).
Qed.


Lemma shutil_copy_raises_oserror src dst w e w' :
  OS.shutil_copy src dst w = (Py.Raise e, w') ->
  Py.caught_by [Py.OSError] e = true.
Proof.
  unfold OS.shutil_copy.
  destruct (OS.stat (OS.fs w) (OS.resolve w src)) as [[c l|]|];
    try (intros [= <- _]; reflexivity).
  destruct (Pathlib.parts_eqb _ _); [intros [= <- _]; reflexivity|].
  destruct (OS.write_file _ _ _) as [[[]|e'] w2] eqn:Hw; [discriminate|].
  intros [= <- _]. revert Hw. unfold OS.write_file.
  destruct (OS.stat _ _) as [[c0 [|]|]|]; try destruct (OS.is_dir _ _);
    intros [= <- _]; reflexivity.
Qed.

Lemma execute_fetchall_raises c q n w e w' :
  OS.execute_fetchall c q n w = (Py.Raise e, w') ->
  Py.exc_type e = Py.SqliteError.
Proof.
  unfold OS.execute_fetchall, Sqlite.execute, Sqlite.select.
  destruct (OS.stat _ _) as [[[bytes|db] l|]|];
    try (intros [= <- _]; reflexivity).
  destruct (_ || _); [intros [= <- _]; reflexivity|].
  destruct q.
  - destruct (Sqlite.urls db); [discriminate|intros [= <- _]; reflexivity].
  - destruct (Sqlite.moz_places db), (Sqlite.moz_historyvisits db);
      try discriminate; intros [= <- _]; reflexivity.
Qed.

(** The two ways in which [history] fails. *)
Lemma history_raises
    (b b1 : Browser) (w w1 : World) (n : Z) (e : Py.exc) :
  class_of b <> Base ->
  history n (b, w) = (Py.Raise e, (b1, w1)) ->
  (Py.caught_by [Py.OSError] e = true /\ b1 = b /\ w1 = w)
  \/ (Py.exc_type e = Py.SqliteError
      /\ temp_path b1 = Some (copy_target w (database_path b))
      /\ exists c,
           OS.stat (OS.fs w1)
                   (OS.resolve w (copy_target w (database_path b)))
           = Some (OS.File c false)).
Proof.
  intros Hcls. rewrite history_run.
  destruct (class_of b); try contradiction;
    rewrite query_history_run;
    (destruct (OS.shutil_copy (database_path b) (OS.tempdir w) w)
       as [[t|e'] w2] eqn:Hcopy;
     [ destruct (OS.execute_fetchall (OS.mkConnection t) _ n w2)
         as [[rows|e''] w3] eqn:Hex; cbn [fst]; [discriminate|];
       intros [= <- <- <-]; right;
       apply execute_fetchall_raises in Hex;
       pose proof Hcopy as Hc;
       apply shutil_copy_returns in Hc as (-> & _ & c & l & _ & ->);
       split; [exact Hex|]; split; [reflexivity|];
       exists c; cbn [OS.fs OS.set_fs];
       apply stat_store_written;
       unfold OS.shutil_copy in Hcopy;
       fold (copy_target w (database_path b)) in Hcopy;
       destruct (OS.stat (OS.fs w) (OS.resolve w (database_path b)))
         as [[c0 l0|]|]; try discriminate;
       destruct (Pathlib.parts_eqb _ _); [discriminate|];
       destruct (OS.write_file _ _ _) as [[[]|e3] w4] eqn:Hw;
         [|discriminate];
       eapply write_file_target, Hw
     | intros [= <- <- <-]; left;
       split; [eapply shutil_copy_raises_oserror, Hcopy|];
       apply shutil_copy_raises in Hcopy as ->; auto ]).
Qed.

(** X11: when [history] of an adapter raises, either the copy failed, with
    an error that derives from [OSError] and nothing changed, or the query
    failed, with an sqlite3 error, and the temporary copy is left in
    place for [__del__], recorded in [temp_path]. *)
Theorem history_errors
    (b b1 : Browser) (w w1 : World) (n : Z) (e : Py.exc) :
  class_of b <> Base ->
  history n (b, w) = (Py.Raise e, (b1, w1)) ->
  (Py.caught_by [Py.OSError] e = true /\ b1 = b /\ w1 = w)
  \/ (Py.exc_type e = Py.SqliteError
      /\ temp_path b1 = Some (copy_target w (database_path b))
      /\ exists c,
           OS.stat (OS.fs w1)
                   (OS.resolve w (copy_target w (database_path b)))
           = Some (OS.File c false)).
Proof. apply history_raises. Qed.
End ReaderProperties.

(** ** browsers.py: locating the profile of a Gecko browser *)


Lemma first_profile_none names pats :
  first_profile names pats = None <->
  forall p n, In p pats -> In n names -> Pathlib.fnmatch p n = false.
Proof.
  induction pats as [|pat pats IH]; simpl.
  - split; [intros _ p n []|reflexivity].
  - destruct (filter (Pathlib.fnmatch pat) names) as [|x l] eqn:Hf.
    + rewrite IH. split.
      * intros Hall p n [<-|Hp] Hin; [|eauto].
        destruct (Pathlib.fnmatch pat n) eqn:E; [|reflexivity].
        assert (Hi : In n (filter (Pathlib.fnmatch pat) names))
          by (apply filter_In; auto).
        rewrite Hf in Hi. destruct Hi.
      * intros Hall p n Hp Hin. apply Hall; auto.
    + split; [discriminate|]. intros Hall. exfalso.
      assert (Hi : In x (filter (Pathlib.fnmatch pat) names))
        by (rewrite Hf; left; reflexivity).
      apply filter_In in Hi as [Hin Hm].
      rewrite (Hall pat x (or_introl eq_refl) Hin) in Hm. discriminate.
Qed.


(** X13: [find_database] raises [FileNotFoundError], with the searched root
    in the message and the world unchanged, exactly when no entry of the
    root matches any of the four patterns. *)
Theorem find_database_not_found (root : Path) (w : World) :
  (forall p n, In p Firefox.patterns -> In n (entries w root) ->
     Pathlib.fnmatch p n = false)
  <-> Firefox.find_database root w
      = (Py.Raise (Py.mkExc Py.FileNotFoundError
                     ("No Firefox/Zen profile found in "
                      ++ Pathlib.as_posix root)), w).
Proof.
  unfold Firefox.find_database. rewrite find_database_from_run.
  rewrite <- first_profile_none.
  destruct (first_profile _ _); split; congruence.
Qed.


Section GeckoFacts.
Context `{Platform}.

End GeckoFacts.

(** ** favicon.py: the cache file of a domain *)

Lemma replace_length a b s :
  String.length (Str.replace a b s) = String.length s.
Proof. induction s as [|c s IH]; simpl; congruence. Qed.

Lemma replace_removes a b s :
  a <> b -> has_char a (Str.replace a b s) = false.
Proof.
  intros Hne. induction s as [|c s IH]; simpl; [reflexivity|].
  rewrite IH, orb_false_r.
  destruct (Ascii.eqb_spec c a) as [->|Hc].
  - apply Ascii.eqb_neq. congruence.
  - apply Ascii.eqb_neq. exact Hc.
Qed.

Lemma replace_adds_only a b c s :
  c <> b -> has_char c s = false -> has_char c (Str.replace a b s) = false.
Proof.
  intros Hne. induction s as [|d s IH]; simpl; [reflexivity|].
  intros Hs. apply orb_false_iff in Hs as [Hd Hs].
  rewrite (IH Hs), orb_false_r.
  destruct (Ascii.eqb d a); [|exact Hd].
  apply Ascii.eqb_neq. congruence.
Qed.

Lemma replace_absent a b s :
  has_char a s = false -> Str.replace a b s = s.
Proof.
  induction s as [|c s IH]; simpl; [reflexivity|].
  intros Hs. apply orb_false_iff in Hs as [Hc Hs].
  rewrite Hc, (IH Hs). reflexivity.
Qed.

Lemma has_char_app c a b :
  has_char c (a ++ b) = has_char c a || has_char c b.
Proof.
  induction a as [|d a IH]; simpl; [reflexivity|].
  rewrite IH. apply orb_assoc.
Qed.

Lemma split_absent sep s :
  has_char sep s = false -> Str.split sep s = [s].
Proof.
  induction s as [|c s IH]; simpl; [reflexivity|].
  intros Hs. apply orb_false_iff in Hs as [Hc Hs].
  rewrite Hc, (IH Hs). reflexivity.
Qed.

Lemma endswith_app s suffix : Str.endswith (s ++ suffix) suffix = true.
Proof.
  induction s as [|c s IH]; simpl.
  - destruct suffix; simpl; rewrite ?String.eqb_refl, ?Ascii.eqb_refl;
      reflexivity.
  - rewrite IH. apply orb_true_r.
Qed.

Lemma sanitize_absent c d :
  c = ":"%char \/ c = "/"%char \/ c = "\"%char ->
  has_char c (FaviconCache._sanitize_filename d) = false.
Proof.
  unfold FaviconCache._sanitize_filename.
  intros [-> | [-> | ->]].
  - apply replace_adds_only; [discriminate|].
    apply replace_adds_only; [discriminate|].
    apply replace_removes. discriminate.
  - apply replace_adds_only; [discriminate|].
    apply replace_removes. discriminate.
  - apply replace_removes. discriminate.
Qed.

(** The segment [<safe_domain>.png] is one path component. *)
Lemma of_string_image name :
  has_char "/" name = false ->
  Pathlib.of_string (name ++ ".png") = mkPath false [(name ++ ".png")%string].
Proof.
  intros Hn. unfold Pathlib.of_string.
  rewrite split_absent
    by (rewrite has_char_app, Hn; reflexivity).
  assert (Hp : String.prefix "/" (name ++ ".png") = false).
  { destruct (String.prefix "/" (name ++ ".png")) eqn:E; [|reflexivity].
    apply prefix_spec in E as [post E].
    assert (Hh : has_char "/" (name ++ ".png") = false)
      by (rewrite has_char_app, Hn; reflexivity).
    rewrite E in Hh. discriminate Hh. }
  rewrite Hp. simpl.
  assert (Hc : Pathlib.is_component (name ++ ".png") = true).
  { unfold Pathlib.is_component.
    destruct name as [|c name]; [reflexivity|].
    simpl. destruct (Ascii.eqb c "."); [|reflexivity].
    destruct name; reflexivity. }
  rewrite Hc. reflexivity.
Qed.

Lemma favicon_file_child fc d :
  FaviconCache.favicon_file fc d
  = Pathlib.child (cache_dir fc)
      (FaviconCache._sanitize_filename d ++ ".png").
Proof.
  unfold FaviconCache.favicon_file.
  rewrite of_string_image by (apply sanitize_absent; auto).
  reflexivity.
Qed.

(** X15: the sanitised name has the length of the domain and contains
    none of [:], [/] and [\]; a domain without these characters is kept
    as it is. *)
Theorem sanitize_filename_safe (d : string) :
  String.length (FaviconCache._sanitize_filename d) = String.length d
  /\ has_char ":" (FaviconCache._sanitize_filename d) = false
  /\ has_char "/" (FaviconCache._sanitize_filename d) = false
  /\ has_char "\" (FaviconCache._sanitize_filename d) = false
  /\ (has_char ":" d = false -> has_char "/" d = false ->
      has_char "\" d = false ->
      FaviconCache._sanitize_filename d = d).
Proof.
  split; [|split; [|split; [|split]]];
    try (apply sanitize_absent; auto).
  - unfold FaviconCache._sanitize_filename.
    rewrite !replace_length. reflexivity.
  - intros Hc Hs Hb. unfold FaviconCache._sanitize_filename.
    rewrite (@replace_absent ":" "_" d) by exact Hc.
    rewrite (@replace_absent "/" "_" d) by exact Hs.
    apply replace_absent. exact Hb.
Qed.

(** The cache file of a domain, as a path and as an entry. *)
Lemma favicon_file_entry fc d w :
  OS.resolve w (FaviconCache.favicon_file fc d)
  = OS.resolve w (cache_dir fc)
    ++ [(FaviconCache._sanitize_filename d ++ ".png")%string]
  /\ is_cached_image fc w (OS.resolve w (FaviconCache.favicon_file fc d))
     = true.
Proof.
  rewrite favicon_file_child, resolve_child. split; [reflexivity|].
  unfold is_cached_image.
  rewrite (proj2 (entry_name_spec _ _ _) eq_refl).
  apply endswith_app.
Qed.

(** X16: whatever the domain, its cache file is a direct entry of the
    cache directory, named [<sanitised domain>.png]: a cached image in the
    sense of [clear_cache], never a path outside the directory. *)
Theorem favicon_file_in_cache_dir
    (fc : FaviconCache) (d : string) (w : World) :
  FaviconCache.favicon_file fc d
  = Pathlib.child (cache_dir fc)
      (FaviconCache._sanitize_filename d ++ ".png")
  /\ OS.resolve w (FaviconCache.favicon_file fc d)
     = OS.resolve w (cache_dir fc)
       ++ [(FaviconCache._sanitize_filename d ++ ".png")%string]
  /\ is_cached_image fc w (OS.resolve w (FaviconCache.favicon_file fc d))
     = true.
Proof.
  split; [apply favicon_file_child|apply favicon_file_entry].
Qed.

Section FaviconMore.
Context `{Platform}.


(** The steps of a resolution, for a URL with a domain. *)
Lemma get_favicon_path_run fc url d w :
  FaviconCache._get_domain url w = (Py.Return (Some d), w) ->
  Str.truthy d = true ->
  FaviconCache.get_favicon_path fc url w
  = match OS.stat (OS.fs w) (OS.resolve w (FaviconCache.favicon_file fc d)) with
    | Some _ =>
        (Py.Return (Some (Pathlib.as_posix (FaviconCache.favicon_file fc d))),
         w)
    | None =>
        let w1 := OS.add_request (FaviconCache.favicon_service d) w in
        match OS.network w (FaviconCache.favicon_service d) with
        | None =>
            (Py.Return None,
             OS.add_log OS.DEBUG
               ("Could not download favicon for " ++ d ++ ": "
                ++ FaviconCache.favicon_service d) w1)
        | Some body =>
            match OS.write_file (FaviconCache.favicon_file fc d)
                                (OS.Bytes body) w1 with
            | (Py.Return _, w2) =>
                (Py.Return
                   (Some (Pathlib.as_posix (FaviconCache.favicon_file fc d))),
                 OS.add_log OS.INFO ("Downloaded favicon for " ++ d) w2)
            | (Py.Raise e, w2) =>
                (Py.Return None,
                 OS.add_log OS.DEBUG
                   ("Could not download favicon for " ++ d ++ ": "
                    ++ Py.exc_msg e) w2)
            end
        end
    end.
Proof.
  intros Hd Ht. unfold FaviconCache.get_favicon_path, bind at 1.
  rewrite Hd, Ht. simpl. run.
  destruct (OS.stat _ _); [reflexivity|].
  destruct (OS.network w _); [|reflexivity].
  destruct (OS.write_file _ _ _) as [[[]|e] w2] eqn:Hw; [reflexivity|].
  apply write_file_raises in Hw as [-> ->]. reflexivity.
Qed.



Lemma resolve_favicon_parent fc d w :
  OS.parent (OS.resolve w (FaviconCache.favicon_file fc d))
  = OS.resolve w (cache_dir fc).
Proof.
  rewrite favicon_file_child, resolve_child. apply removelast_last.
Qed.


(** X19: when the icon is not cached, the service answers and the cache
    directory exists, the resolution stores the response body, as
    received, in the cache file of the domain and returns its path, after
    exactly one request. *)
Theorem favicon_download_stored
    (fc : FaviconCache) (url d : string) (body : list Byte.byte)
    (w : World) :
  FaviconCache._get_domain url w = (Py.Return (Some d), w) ->
  Str.truthy d = true ->
  OS.stat (OS.fs w) (OS.resolve w (FaviconCache.favicon_file fc d)) = None ->
  OS.network w (FaviconCache.favicon_service d) = Some body ->
  OS.is_dir (OS.fs w) (OS.resolve w (cache_dir fc)) = true ->
  exists w1,
    FaviconCache.get_favicon_path fc url w
    = (Py.Return (Some (Pathlib.as_posix (FaviconCache.favicon_file fc d))),
       w1)
    /\ OS.stat (OS.fs w1) (OS.resolve w1 (FaviconCache.favicon_file fc d))
       = Some (OS.File (OS.Bytes body) false)
    /\ OS.requests w1 = FaviconCache.favicon_service d :: OS.requests w
    /\ OS.log w1 = (OS.INFO, ("Downloaded favicon for " ++ d)%string) :: OS.log w.
Proof.
  intros Hd Ht Hs Hn Hdir.
  rewrite (get_favicon_path_run fc url Hd Ht), Hs, Hn. cbv zeta.
  unfold OS.write_file.
  change (OS.resolve (OS.add_request ?u w)) with (OS.resolve w).
  change (OS.fs (OS.add_request ?u w)) with (OS.fs w).
  rewrite Hs, resolve_favicon_parent, Hdir.
  eexists. split; [reflexivity|]. simpl.
  change (OS.resolve (OS.add_log ?l ?m ?v)) with (OS.resolve w).
  split; [|auto].
  apply stat_store_written.
  rewrite favicon_file_child, resolve_child.
  intros Heq. symmetry in Heq. apply app_cons_not_nil in Heq. exact Heq.
Qed.







(** The outcomes of creating the cache directory. *)
Lemma favicon_init_outcome (given : option Path) (w : World) :
  let dir :=
    match given with
    | Some d => d
    | None =>
        Pathlib.child (Pathlib.parent (Pathlib.parent (OS.favicon_py w)))
                      "favicons"
    end in
  match FaviconCache.__init__ given w with
  | (Py.Return fc, w') =>
      cache_dir fc = dir
      /\ OS.is_dir (OS.fs w') (OS.resolve w' dir) = true
      /\ (forall k, k <> OS.resolve w dir ->
          OS.stat (OS.fs w') k = OS.stat (OS.fs w) k)
      /\ (OS.is_dir (OS.fs w) (OS.resolve w dir) = true -> w' = w)
  | (Py.Raise e, w') =>
      w' = w
      /\ OS.is_dir (OS.fs w) (OS.resolve w dir) = false
      /\ Py.caught_by [Py.OSError] e = true
  end.
Proof.
  intros dir.
  assert (Hrun : FaviconCache.__init__ given w
                 = match OS.mkdir_exist_ok dir w with
                   | (Py.Return _, w') => (Py.Return (mkFaviconCache dir), w')
                   | (Py.Raise e, w') => (Py.Raise e, w')
                   end).
  { unfold FaviconCache.__init__, dir. destruct given as [d|]; run;
      destruct (OS.mkdir_exist_ok _ w) as [[[]|e] w']; reflexivity. }
  rewrite Hrun. unfold OS.mkdir_exist_ok.
  assert (Hdir : OS.is_dir (OS.fs w) (OS.resolve w dir)
                 = match OS.stat (OS.fs w) (OS.resolve w dir) with
                   | Some OS.Dir => true
                   | _ => false
                   end) by reflexivity.
  rewrite Hdir.
  destruct (OS.stat (OS.fs w) (OS.resolve w dir)) as [[c l|]|] eqn:Hs.
  - repeat split.
  - unfold OS.is_dir. rewrite Hs. repeat split.
  - destruct (OS.is_dir (OS.fs w) (OS.parent (OS.resolve w dir))).
    + simpl. change (OS.resolve (OS.set_fs ?f w)) with (OS.resolve w).
      assert (Hne : OS.resolve w dir <> []).
      { intros Hnil. rewrite Hnil in Hs. discriminate Hs. }
      repeat split.
      * unfold OS.is_dir. rewrite stat_store_written by exact Hne.
        reflexivity.
      * intros k Hk. apply stat_store_other. congruence.
      * discriminate.
    + repeat split.
Qed.

(** X22: a constructed cache has its directory: when [__init__] returns,
    the cache directory (the one given, or [favicons] beside the plugin
    package) is a directory, nothing else has changed, and nothing at all
    if it was there already; when it raises, the error derives from
    [OSError] and the world is as before. *)
Theorem favicon_cache_init (given : option Path) (w : World) :
  let dir :=
    match given with
    | Some d => d
    | None =>
        Pathlib.child (Pathlib.parent (Pathlib.parent (OS.favicon_py w)))
                      "favicons"
    end in
  match FaviconCache.__init__ given w with
  | (Py.Return fc, w') =>
      cache_dir fc = dir
      /\ OS.is_dir (OS.fs w') (OS.resolve w' dir) = true
      /\ (forall k, k <> OS.resolve w dir ->
          OS.stat (OS.fs w') k = OS.stat (OS.fs w) k)
      /\ (OS.is_dir (OS.fs w) (OS.resolve w dir) = true -> w' = w)
  | (Py.Raise e, w') =>
      w' = w
      /\ OS.is_dir (OS.fs w) (OS.resolve w dir) = false
      /\ Py.caught_by [Py.OSError] e = true
  end.
Proof. apply favicon_init_outcome. Qed.

End FaviconMore.

(** ** main.py: what a search does to the world *)

Lemma stat_store_monotone k n f k' :
  OS.stat f k' <> None -> OS.stat (OS.store k n f) k' <> None.
Proof.
  intros Hk. destruct k' as [|x k']; [exact Hk|].
  destruct (list_eq_dec string_dec k (x :: k')) as [->|Hne].
  - rewrite stat_store_written by discriminate. discriminate.
  - rewrite stat_store_other by exact Hne. exact Hk.
Qed.

Section SearchEffects.
Context `{Platform}.

(** A resolution keeps what exists, touches cache images only and opens
    at most one URL. *)
Lemma get_favicon_path_effects fc url w :
  exists r w',
    FaviconCache.get_favicon_path fc url w = (Py.Return r, w')
    /\ OS.cwd w' = OS.cwd w
    /\ (forall k, OS.stat (OS.fs w) k <> None -> OS.stat (OS.fs w') k <> None)
    /\ (forall k, is_cached_image fc w k = false ->
        OS.stat (OS.fs w') k = OS.stat (OS.fs w) k)
    /\ (List.length (OS.requests w') <= S (List.length (OS.requests w)))%nat
    /\ (forall p, r = Some p ->
        exists d,
          p = Pathlib.as_posix (FaviconCache.favicon_file fc d)
          /\ OS.stat (OS.fs w') (OS.resolve w' (FaviconCache.favicon_file fc d))
             <> None).
Proof.
  destruct (FaviconCache._get_domain url w) as [rd wd] eqn:Hd.
  pose proof Hd as Hd'. rewrite get_domain_run in Hd'.
  destruct (urlparse url) as [parsed|] eqn:Hu.
  - injection Hd' as <- <-.
    set (d := Str.removeprefix _ _) in *.
    destruct (Str.truthy d) eqn:Ht.
    + rewrite (get_favicon_path_run fc url Hd Ht).
      destruct (OS.stat (OS.fs w) _) as [n|] eqn:Hs.
      * do 2 eexists. split; [reflexivity|]. repeat split; auto.
        intros p [= <-]. exists d. split; [reflexivity|]. congruence.
      * cbv zeta. destruct (OS.network w _) as [body|].
        -- destruct (OS.write_file _ _ _) as [[[]|e] w2] eqn:Hw.
           ++ pose proof (write_file_target _ _ _ Hw) as Hne.
              apply write_file_returns in Hw. subst w2.
              do 2 eexists. split; [reflexivity|]. simpl.
              change (OS.resolve (OS.add_request
                        (FaviconCache.favicon_service d) w))
                with (OS.resolve w) in *.
              repeat split; auto.
              ** intros k. apply stat_store_monotone.
              ** intros k Hk. apply stat_store_other. intros <-.
                 destruct (favicon_file_entry fc d w) as (_ & Hc).
                 congruence.
              ** intros p [= <-]. exists d. split; [reflexivity|].
                 change (OS.resolve (OS.add_log _ _ _))
                   with (OS.resolve w).
                 rewrite stat_store_written by exact Hne. discriminate.
           ++ apply write_file_raises in Hw as [_ ->].
              do 2 eexists. split; [reflexivity|]. simpl.
              repeat split; auto. discriminate.
        -- do 2 eexists. split; [reflexivity|]. simpl.
           repeat split; auto. discriminate.
    + unfold FaviconCache.get_favicon_path, bind. rewrite Hd, Ht. simpl.
      do 2 eexists. split; [reflexivity|].
      repeat split; auto. discriminate.
  - injection Hd' as <- <-.
    unfold FaviconCache.get_favicon_path, bind. rewrite Hd.
    do 2 eexists. split; [reflexivity|]. simpl.
    repeat split; auto. discriminate.
Qed.

(** What [history] leaves as it found it. *)
Lemma history_effects b w n r b1 w1 :
  history n (b, w) = (r, (b1, w1)) ->
  OS.cwd w1 = OS.cwd w
  /\ OS.requests w1 = OS.requests w
  /\ class_of b1 = class_of b
  /\ database_path b1 = database_path b
  /\ (forall k, k <> OS.resolve w (copy_target w (database_path b)) ->
      OS.stat (OS.fs w1) k = OS.stat (OS.fs w) k)
  /\ (forall k, OS.stat (OS.fs w) k <> None -> OS.stat (OS.fs w1) k <> None).
Proof.
  rewrite history_run.
  assert (Hq : forall q r b1 w1,
            match Base.query_history (database_path b) q n (b, w) with
            | (Py.Return rows, (b2, w2)) =>
                (Py.Return
                   (map (fun r : Sqlite.row =>
                           let '(u, t, v) := r in
                           HistoryItem.__init__ b2 u t v) rows), (b2, w2))
            | (Py.Raise e, s1) => (Py.Raise e, s1)
            end = (r, (b1, w1)) ->
            OS.cwd w1 = OS.cwd w
            /\ OS.requests w1 = OS.requests w
            /\ class_of b1 = class_of b
            /\ database_path b1 = database_path b
            /\ (forall k,
                  k <> OS.resolve w (copy_target w (database_path b)) ->
                  OS.stat (OS.fs w1) k = OS.stat (OS.fs w) k)
            /\ (forall k, OS.stat (OS.fs w) k <> None ->
                OS.stat (OS.fs w1) k <> None)).
  { intros q r' b' w'. rewrite query_history_run.
    destruct (OS.shutil_copy (database_path b) (OS.tempdir w) w)
      as [[t|e] w2] eqn:Hcopy.
    - apply shutil_copy_returns in Hcopy as (-> & _ & c & l & _ & ->).
      destruct (fst (OS.execute_fetchall _ q n _)) as [rows|e];
        intros [= _ <- <-]; cbn [OS.fs OS.set_fs OS.cwd OS.requests];
        (repeat split; auto;
         [ intros k Hk; apply stat_store_other; congruence
         | intros k; apply stat_store_monotone ]).
    - apply shutil_copy_raises in Hcopy as ->.
      intros [= _ <- <-]. repeat split; auto. }
  destruct (class_of b) eqn:Hc; cbv iota; try (apply Hq).
  intros [= _ <- <-]. repeat split; auto.
Qed.

Lemma on_browser_inv {A} (m : Method Browser A) bh w r bh1 w1 :
  Main.on_browser m (bh, w) = (r, (bh1, w1)) ->
  exists b1,
    m (Main.browser bh, w) = (r, (b1, w1)) /\ bh1 = Main.set_browser b1 bh.
Proof.
  unfold Main.on_browser. cbn [fst snd].
  destruct (m (Main.browser bh, w)) as [r' [b' w']].
  intros [= <- <- <-]. eauto.
Qed.

Lemma presents_icon_later fc w w' i :
  OS.cwd w' = OS.cwd w ->
  (forall k, OS.stat (OS.fs w) k <> None -> OS.stat (OS.fs w') k <> None) ->
  presents_icon fc w i -> presents_icon fc w' i.
Proof.
  intros Hcwd Hmono [Ha Hi]. split; [exact Ha|].
  destruct Hi as [(d & Hico & Hg & Hs)|Hi]; [left|right; exact Hi].
  exists d. repeat split; auto.
  assert (Hres : OS.resolve w' (FaviconCache.favicon_file fc d)
                 = OS.resolve w (FaviconCache.favicon_file fc d))
    by (unfold OS.resolve; rewrite Hcwd; reflexivity).
  rewrite Hres. apply Hmono, Hs.
Qed.

Lemma is_cached_image_cwd fc w w' k :
  OS.cwd w' = OS.cwd w -> is_cached_image fc w' k = is_cached_image fc w k.
Proof.
  intros Hcwd. unfold is_cached_image, OS.resolve. rewrite Hcwd.
  reflexivity.
Qed.

(** One turn of the loop, with its effects. *)
Lemma query_step_effects ql e bh w :
  exists bh' w' found,
    Main.query_step ql e (bh, w) = (Py.Return tt, (bh', w'))
    /\ Main._results bh' = Main._results bh ++ found
    /\ Main.favicon_cache bh' = Main.favicon_cache bh
    /\ Main.browser bh' = Main.browser bh
    /\ OS.cwd w' = OS.cwd w
    /\ (forall k, OS.stat (OS.fs w) k <> None -> OS.stat (OS.fs w') k <> None)
    /\ (forall k, is_cached_image (Main.favicon_cache bh) w k = false ->
        OS.stat (OS.fs w') k = OS.stat (OS.fs w) k)
    /\ Forall (presents_icon (Main.favicon_cache bh) w') found
    /\ (List.length (OS.requests w')
        <= List.length (OS.requests w) + List.length found)%nat.
Proof.
  destruct e as [idx item]. unfold Main.query_step.
  destruct (Main.matches ql item).
  - unfold Main.add_item. run.
    destruct (get_favicon_path_effects (Main.favicon_cache bh) (url item) w)
      as (r & w' & -> & Hcwd & Hmono & Hframe & Hreq & Hpath).
    assert (Hstock : forall t s p c,
              presents_icon (Main.favicon_cache bh) w'
                (Main.mkItem t s (Some Main.ICON_HISTORY)
                   (Some Main.HISTORY_GLYPH) (Some Main.browser_open) p c))
      by (intros; split; [reflexivity|right; split; reflexivity]).
    assert (Hfile : forall p t s ps c,
              r = Some p ->
              presents_icon (Main.favicon_cache bh) w'
                (Main.mkItem t s (Some (Main.IconFile p)) None
                   (Some Main.browser_open) ps c)).
    { intros p t s ps c Hr. destruct (Hpath p Hr) as (d & -> & Hs).
      split; [reflexivity|]. left. exists d. auto. }
    destruct r as [p|]; [destruct (Str.truthy p)|];
      (do 3 eexists; split; [reflexivity|]; split; [reflexivity|];
       split; [reflexivity|]; split; [reflexivity|]; split; [exact Hcwd|];
       split; [exact Hmono|]; split; [exact Hframe|];
       split; [constructor; [auto|constructor]|simpl; lia]).
  - run. exists bh, w, []. rewrite app_nil_r.
    repeat split; auto. simpl. lia.
Qed.

Lemma query_loop_effects ql entries : forall bh w,
  exists bh' w' found,
    for_each entries (Main.query_step ql) (bh, w) = (Py.Return tt, (bh', w'))
    /\ Main._results bh' = Main._results bh ++ found
    /\ Main.favicon_cache bh' = Main.favicon_cache bh
    /\ Main.browser bh' = Main.browser bh
    /\ OS.cwd w' = OS.cwd w
    /\ (forall k, OS.stat (OS.fs w) k <> None -> OS.stat (OS.fs w') k <> None)
    /\ (forall k, is_cached_image (Main.favicon_cache bh) w k = false ->
        OS.stat (OS.fs w') k = OS.stat (OS.fs w) k)
    /\ Forall (presents_icon (Main.favicon_cache bh) w') found
    /\ (List.length (OS.requests w')
        <= List.length (OS.requests w) + List.length found)%nat.
Proof.
  induction entries as [|e entries IH]; intros bh w; simpl.
  - exists bh, w, []. rewrite app_nil_r. repeat split; auto. lia.
  - unfold bind.
    destruct (query_step_effects ql e bh w)
      as (bh1 & w1 & f1 & -> & Hres1 & Hfc1 & Hb1 & Hcwd1 & Hmono1
          & Hframe1 & Hicon1 & Hreq1).
    destruct (IH bh1 w1)
      as (bh2 & w2 & f2 & -> & Hres2 & Hfc2 & Hb2 & Hcwd2 & Hmono2
          & Hframe2 & Hicon2 & Hreq2).
    exists bh2, w2, (f1 ++ f2). split; [reflexivity|].
    split; [rewrite Hres2, Hres1, app_assoc; reflexivity|].
    split; [congruence|]. split; [congruence|]. split; [congruence|].
    split; [auto|]. split; [|split].
    + intros k Hk. rewrite Hframe2; [apply Hframe1, Hk|].
      rewrite Hfc1. erewrite is_cached_image_cwd by exact Hcwd1. exact Hk.
    + apply Forall_app. split.
      * eapply Forall_impl; [|exact Hicon1].
        intros i. apply presents_icon_later; assumption.
      * rewrite <- Hfc1. exact Hicon2.
    + rewrite length_app. lia.
Qed.

End SearchEffects.

Section SearchProperties.
Context `{Platform}.


(** A missing source file makes every adapter raise
    [FileNotFoundError] and change nothing. *)
Lemma history_missing_source b w n :
  class_of b <> Base ->
  OS.stat (OS.fs w) (OS.resolve w (database_path b)) = None ->
  history n (b, w)
  = (Py.Raise (OS.oserror Py.FileNotFoundError (database_path b)), (b, w)).
Proof.
  intros Hcls Hs. rewrite history_run.
  destruct (class_of b); try contradiction;
    rewrite query_history_run; unfold OS.shutil_copy; rewrite Hs;
    reflexivity.
Qed.

(** X23: when the history file of the adapter does not exist, the search
    does not raise: it appends the record "History not found!" and
    returns the results; the world is unchanged and no favicon is looked
    up, whatever the text. *)
Theorem query_missing_database
    (q : string) (bh : Main.BrowserHistory) (w : World) :
  class_of (Main.browser bh) <> Base ->
  OS.stat (OS.fs w) (OS.resolve w (database_path (Main.browser bh))) = None ->
  Main._query q (bh, w)
  = (Py.Return (Main._results bh ++ [history_not_found]),
     (Main.mkBrowserHistory (Main.settings bh) (Main.default_browser bh)
        (Main.browser bh) (Main.favicon_cache bh)
        (Main._results bh ++ [history_not_found]), w)).
Proof.
  intros Hcls Hs.
  assert (Hf : Main.on_browser (history 10000) (bh, w)
               = (Py.Raise (OS.oserror Py.FileNotFoundError
                              (database_path (Main.browser bh))),
                  (Main.set_browser (Main.browser bh) bh, w))).
  { unfold Main.on_browser. cbn [fst snd].
    rewrite history_missing_source by assumption. reflexivity. }
  erewrite query_history_not_found; [|exact Hf|reflexivity].
  reflexivity.
Qed.


(** X25: every record a search adds is the "History not found!" record
    alone, or opens its page in the browser and carries either the path
    of an icon file of the cache that exists when the search returns, or
    the stock history icon with the glyph. *)
Theorem query_records_presentable
    (q : string) (bh bh2 : Main.BrowserHistory) (w w2 : World)
    (items : list Main.Item) :
  Main._query q (bh, w) = (Py.Return items, (bh2, w2)) ->
  exists found,
    items = Main._results bh ++ found
    /\ Main._results bh2 = items
    /\ (found = [history_not_found]
        \/ Forall (presents_icon (Main.favicon_cache bh) w2) found).
Proof.
  destruct (Main.on_browser (history 10000) (bh, w)) as [r [bh1 w1]] eqn:Hf.
  pose proof Hf as Hinv. apply on_browser_inv in Hinv as (b1 & Hh & ->).
  destruct r as [entries|e1].
  - destruct (query_loop_effects (lower q) (Main.enumerate entries)
                (Main.set_browser b1 bh) w1)
      as (bh3 & w3 & found & Hloop & Hres & Hfc & _ & _ & _ & _ & Hicon & _).
    unfold Main._query, Main.query, bind at 1, try_except, bind at 1.
    rewrite Hf, Hloop. unfold bind, self, ret. cbn [fst snd].
    intros [= <- <- <-]. exists found. split; [exact Hres|].
    split; [reflexivity|]. right. exact Hicon.
  - destruct (Py.caught_by [Py.FileNotFoundError] e1) eqn:Hc.
    + erewrite query_history_not_found by eassumption.
      intros [= <- <- <-]. exists [history_not_found].
      split; [reflexivity|]. split; [reflexivity|]. left. reflexivity.
    + unfold Main._query, Main.query, bind at 1, try_except, bind at 1.
      rewrite Hf, Hc. discriminate.
Qed.




(** X28: the entries an adapter returns carry the adapter itself, so
    [timestamp] fails on every entry of a Chromium-family history, with
    [TypeError], and on every entry of a Gecko history it is
    [fromtimestamp] of the visit time in seconds. *)
Theorem history_entries_timestamp
    (b b1 : Browser) (w w1 w0 : World) (n : Z) (items : list HistoryItem)
    (item : HistoryItem) :
  history n (b, w) = (Py.Return items, (b1, w1)) ->
  In item items ->
  browser item = b1
  /\ class_of b1 = class_of b
  /\ (isinstance b [Chrome; Edge; Brave; Opera; Vivaldi; Arc] = true ->
      exists msg,
        HistoryItem.timestamp item w0
        = (Py.Raise (Py.mkExc Py.TypeError msg), w0))
  /\ (isinstance b [Firefox; Zen] = true ->
      HistoryItem.timestamp item w0
      = (fromtimestamp (truediv (last_visit_time item) 1000000), w0)).
Proof.
  intros Hh Hin.
  pose proof (history_effects _ _ _ Hh) as (_ & _ & Hcls & _).
  assert (Hb : browser item = b1).
  { rewrite history_run in Hh.
    destruct (class_of b); try discriminate Hh;
      match type of Hh with
      | context [Base.query_history ?p ?q ?n ?s] =>
          destruct (Base.query_history p q n s) as [[rows|e] [b2 w2]]
      end; try discriminate Hh;
      injection Hh as <- <- <-;
      apply in_map_iff in Hin as ([[u t] v] & <- & _); reflexivity. }
  split; [exact Hb|]. split; [exact Hcls|].
  unfold HistoryItem.timestamp, isinstance. rewrite Hb, Hcls. split.
  - intros Hc. destruct (class_of b); simpl in Hc; try discriminate Hc;
      simpl; eexists; reflexivity.
  - intros Hc. destruct (class_of b); simpl in Hc; try discriminate Hc;
      reflexivity.
Qed.

(** X29: with a Chromium-family browser configured, in any letter case,
    or none configured, the constructor cannot fail on the browser: it
    returns a plugin with the adapter named, no results and the cache
    directory [favicons] beside the plugin package in place, or it raises
    the error of creating that directory, which derives from [OSError],
    and changes nothing. *)
Theorem main_init_chromium
    (settings : list (string * string)) (w : World) :
  let name :=
    lower (match dict_get settings "default_browser" with
           | Some v => v
           | None => Main.DEFAULT_BROWSER
           end) in
  let dir :=
    Pathlib.child (Pathlib.parent (Pathlib.parent (OS.favicon_py w)))
                  "favicons" in
  In name ["chrome"; "edge"; "brave"; "opera"; "vivaldi"; "arc"] ->
  match Main.__init__ settings w with
  | (Py.Return bh, w') =>
      Sample.lower (class_name (class_of (Main.browser bh))) = name
      /\ temp_path (Main.browser bh) = None
      /\ Main.settings bh = settings
      /\ Main._results bh = []
      /\ cache_dir (Main.favicon_cache bh) = dir
      /\ OS.is_dir (OS.fs w') (OS.resolve w' dir) = true
      /\ (forall k, k <> OS.resolve w dir ->
          OS.stat (OS.fs w') k = OS.stat (OS.fs w) k)
  | (Py.Raise e, w') =>
      w' = w
      /\ Py.caught_by [Py.OSError] e = true
      /\ OS.is_dir (OS.fs w) (OS.resolve w dir) = false
  end.
Proof.
  intros name dir Hin.
  pose proof (favicon_init_outcome None w) as Hinit. cbv zeta in Hinit.
  fold dir in Hinit.
  set (raw := match dict_get settings "default_browser" with
              | Some v => v
              | None => Main.DEFAULT_BROWSER
              end) in *.
  assert (Hget : exists b,
            get name w = (Py.Return b, w)
            /\ Sample.lower (class_name (class_of b)) = name
            /\ temp_path b = None).
  { simpl in Hin.
    repeat (destruct Hin as [<-|Hin]); try contradiction;
      (eexists; split; [reflexivity|]; split; reflexivity). }
  destruct Hget as (b & Hget & Hname & Htmp).
  unfold Main.__init__, bind. fold raw. fold name. rewrite Hget.
  destruct (FaviconCache.__init__ None w) as [[fc|e] w'].
  - destruct Hinit as (Hdir & Hd & Hfr & _). unfold ret.
    cbn [Main.browser Main.settings Main._results Main.favicon_cache].
    repeat split; auto.
  - destruct Hinit as (-> & Hd & Hc). auto.
Qed.

End SearchProperties.

(* ===================================================================== *)
(** * The scenarios                                                       *)
(* ===================================================================== *)

#[local] Existing Instance Sample.platform.

(** C5: for the relative root [profiles], whose only entry is the
    directory [foo.default-release], [find_database] returns
    [profiles/profiles/foo.default-release/places.sqlite], not
    [profiles/foo.default-release/places.sqlite]; for the absolute root
    [/srv/profiles] with the same content it returns
    [/srv/profiles/foo.default-release/places.sqlite]. *)
Theorem find_database_relative_root :
  Firefox.find_database (Sample.rel ["profiles"]) Scenario.profiles_world
  = (Py.Return (Sample.rel ["profiles"; "profiles"; "foo.default-release";
                            "places.sqlite"]),
     Scenario.profiles_world)
  /\ Firefox.find_database (Sample.abs ["srv"; "profiles"])
                           Scenario.profiles_world
     = (Py.Return (Sample.abs ["srv"; "profiles"; "foo.default-release";
                               "places.sqlite"]),
        Scenario.profiles_world).
Proof. split; reflexivity. Qed.

(** The scenario's row: the title falls back to the url, the time the
    specification expects is 2022-06-18 04:26:40 (in the zone UTC), and
    [timestamp] raises instead. *)
Lemma page_entry :
  title Scenario.page = "https://example.com/page"
  /\ chromium_time (last_visit_time Scenario.page)
     = Py.Return (mkDatetime 2022 6 18 4 26 40 0)
  /\ fst (HistoryItem.timestamp Scenario.page Scenario.plugin_world)
     = Py.Raise (not_an_integer (Py.Float (1655526400 # 1))).
Proof. repeat split. Qed.

(** The scenario's page comes from a Chrome adapter: its [timestamp] raises. *)
Lemma timestamp_chromium_raises_witness :
  isinstance (browser Scenario.page)
             [Chrome; Edge; Brave; Opera; Vivaldi; Arc] = true
  /\ exists msg,
       HistoryItem.timestamp Scenario.page Scenario.plugin_world
       = (Py.Raise (Py.mkExc Py.TypeError msg), Scenario.plugin_world).
Proof.
  split; [reflexivity|]. apply timestamp_chromium_raises. reflexivity.
Defined.

(** C2 as stated fails: asked for 20,000 entries of a table of 10,001,
    the Chrome adapter returns 10,001. *)
Lemma history_exceeds_cap :
  ~ history_capped Scenario.chrome
      (Scenario.chrome_world Scenario.big_table) 20000.
Proof.
  unfold history_capped. rewrite history_chrome_world.
  rewrite List.length_map. unfold Sqlite.limit_rows.
  change (20000 <? 0)%Z with false. cbv iota.
  rewrite List.length_firstn, order_by_time_desc_length.
  unfold Sqlite.select_urls, Scenario.big_table.
  rewrite !List.length_map, List.length_rev, List.length_seq.
  lia.
Qed.

(** Asked for two entries of the scenario's three, the adapter returns
    two. *)
Lemma history_at_most_limit_witness :
  exists items s',
    (0 <= 2)%Z
    /\ history 2 (Scenario.chrome,
                  Scenario.chrome_world Scenario.small_table)
       = (Py.Return items, s')
    /\ (Z.of_nat (List.length items) <= 2)%Z
    /\ ((2 <= 10000)%Z -> (Z.of_nat (List.length items) <= 10000)%Z).
Proof.
  do 2 eexists. split; [lia|]. split; [reflexivity|].
  apply history_at_most_limit
    with (b := Scenario.chrome)
         (w := Scenario.chrome_world Scenario.small_table)
         (s' := snd (history 2 (Scenario.chrome,
                               Scenario.chrome_world Scenario.small_table)));
    [lia|reflexivity].
Defined.


(** The search of the scenario: of the three entries, the two that
    contain "example" are returned, in recency order, each with its rank
    in the history. *)
Lemma query_example :
  map (fun i => (Main.Title i, Main.SubTitle i))
      (match fst (Main._query "EXAMPLE"
                    (Scenario.plugin, Scenario.plugin_world)) with
       | Py.Return found => found
       | Py.Raise _ => []
       end)
  = [ ("https://example.org/", "1. https://example.org/");
      ("https://example.com/page", "2. https://example.com/page") ].
Proof. reflexivity. Qed.

(** C4 as stated fails: the first image cannot be deleted, and the second,
    which can, is still there after [clear_cache]. *)
Lemma clear_cache_spares_later_image :
  ~ clears_all_it_can Scenario.cache Scenario.cache_world.
Proof.
  intros Hclaim.
  specialize (Hclaim (Sample.abs Scenario.free_png)).
  assert (Hgone := Hclaim (or_intror (or_introl eq_refl)) eq_refl).
  discriminate Hgone.
Qed.

(** In that cache nothing is deleted at all, and the error is logged. *)
Lemma clear_cache_example :
  cached_images Scenario.cache Scenario.cache_world
  = [Sample.abs Scenario.held_png; Sample.abs Scenario.free_png]
  /\ fst (FaviconCache.clear_cache Scenario.cache Scenario.cache_world)
     = Py.Return tt
  /\ OS.fs (snd (FaviconCache.clear_cache Scenario.cache
                                          Scenario.cache_world))
     = OS.fs Scenario.cache_world
  /\ OS.log (snd (FaviconCache.clear_cache Scenario.cache
                                           Scenario.cache_world))
     = [(OS.ERROR,
         ("Error clearing favicon cache: "
          ++ "/plugins/history/favicons/held.example.png")%string)].
Proof. repeat split. Qed.

(** No file [/data/Missing] exists in the scenario. *)
Lemma query_history_missing_source_witness :
  OS.stat (OS.fs Scenario.plugin_world)
          (OS.resolve Scenario.plugin_world (Sample.abs ["data"; "Missing"]))
  = None
  /\ Base.query_history (Sample.abs ["data"; "Missing"]) Sqlite.SELECT_urls
       10 (Scenario.chrome, Scenario.plugin_world)
     = (Py.Raise (OS.oserror Py.FileNotFoundError
                             (Sample.abs ["data"; "Missing"])),
        (Scenario.chrome, Scenario.plugin_world))
  /\ (temp_path Scenario.chrome = None ->
      Base.__del__ (Scenario.chrome, Scenario.plugin_world)
      = (Py.Return tt, (Scenario.chrome, Scenario.plugin_world))).
Proof.
  split; [reflexivity|].
  apply query_history_missing_source. reflexivity.
Defined.

(** The favicon of [example.com] is downloaded once; with the network
    gone, the second resolution answers from the cache. *)
Lemma get_favicon_path_idempotent_witness :
  FaviconCache.get_favicon_path Scenario.cache "https://example.com/page"
                                Scenario.plugin_world
  = (Py.Return (Some "/plugins/history/favicons/example.com.png"),
     Scenario.cached_world)
  /\ OS.requests Scenario.cached_world
     = [FaviconCache.favicon_service "example.com"]
  /\ FaviconCache.get_favicon_path Scenario.cache
       "https://example.com/page"
       (OS.set_network Sample.offline Scenario.cached_world)
     = (Py.Return (Some "/plugins/history/favicons/example.com.png"),
        OS.set_network Sample.offline Scenario.cached_world).
Proof.
  split; [reflexivity|]. split; [reflexivity|].
  apply get_favicon_path_idempotent with (w := Scenario.plugin_world).
  reflexivity.
Defined.

(** The empty URL. *)
Lemma get_favicon_path_unparsable_witness :
  (urlparse "" = None \/ urlparse "" = Some (mkParseResult "" ""))
  /\ exists w',
       FaviconCache.get_favicon_path Scenario.cache "" Scenario.plugin_world
       = (Py.Return None, w')
       /\ OS.fs w' = OS.fs Scenario.plugin_world
       /\ OS.requests w' = OS.requests Scenario.plugin_world.
Proof.
  split; [right; reflexivity|].
  apply get_favicon_path_unparsable. right. reflexivity.
Defined.

(** A URL that [urlparse] rejects: the bracket of the address is open. *)
Lemma get_favicon_path_rejected_url :
  urlparse "http://[::1/x" = None
  /\ fst (FaviconCache.get_favicon_path Scenario.cache "http://[::1/x"
                                        Scenario.plugin_world)
     = Py.Return None.
Proof. split; reflexivity. Qed.

(** The note in the cache directory survives [clear_cache]. *)
Lemma clear_cache_frame_witness :
  is_cached_image Scenario.cache Scenario.cache_world Scenario.notes_txt
  = false
  /\ OS.stat (OS.fs (snd (FaviconCache.clear_cache Scenario.cache
                                                   Scenario.cache_world)))
             Scenario.notes_txt
     = OS.stat (OS.fs Scenario.cache_world) Scenario.notes_txt.
Proof.
  split; [reflexivity|]. apply clear_cache_frame. reflexivity.
Defined.

(** ** Further scenarios *)

(** ["Chrome"], capitalised, is not a key. *)
Lemma get_unknown_browser_witness :
  ~ In "Chrome" browser_names
  /\ get "Chrome" Scenario.plugin_world
     = (Py.Raise
          (Py.mkExc Py.ValueError
             ("Invalid browser name: 'Chrome'. "
              ++ "Valid options: "
              ++ "chrome, firefox, edge, brave, opera, vivaldi, arc, zen")),
        Scenario.plugin_world).
Proof.
  assert (Hout : ~ In "Chrome" browser_names)
    by (simpl; intuition discriminate).
  split; [exact Hout|]. apply get_unknown_browser. exact Hout.
Defined.

(** The Edge adapter, in a world without any Edge data. *)
Lemma get_chromium_adapter_witness :
  In "edge" ["chrome"; "edge"; "brave"; "opera"; "vivaldi"; "arc"]
  /\ exists b,
       get "edge" Scenario.plugin_world = (Py.Return b, Scenario.plugin_world)
       /\ Sample.lower (class_name (class_of b)) = "edge"
       /\ isinstance b [Chrome; Edge; Brave; Opera; Vivaldi; Arc] = true
       /\ temp_path b = None
       /\ Pathlib.name (database_path b) = "History".
Proof.
  assert (Hin : In "edge" ["chrome"; "edge"; "brave"; "opera"; "vivaldi";
                           "arc"]) by (simpl; auto).
  split; [exact Hin|]. apply get_chromium_adapter. exact Hin.
Defined.

(** A plugin configured for Safari. *)
Lemma main_init_invalid_browser_witness :
  ~ In (lower "Safari") browser_names
  /\ exists msg,
       Main.__init__ [("default_browser", "Safari")] Scenario.plugin_world
       = (Py.Raise (Py.mkExc Py.ValueError msg), Scenario.plugin_world).
Proof.
  assert (Hout : ~ In (lower "Safari") browser_names)
    by (simpl; intuition discriminate).
  split; [exact Hout|].
  apply (main_init_invalid_browser [("default_browser", "Safari")]).
  exact Hout.
Defined.

(** The read of the scenario's database. *)
Lemma query_history_reads_snapshot_witness :
  exists rows b1 w1,
    Base.query_history (Sample.abs ["data"; "History"]) Sqlite.SELECT_urls 2
      (Scenario.chrome, Scenario.plugin_world)
    = (Py.Return rows, (b1, w1))
    /\ exists db l,
         OS.stat (OS.fs Scenario.plugin_world)
                 (OS.resolve Scenario.plugin_world
                             (Sample.abs ["data"; "History"]))
         = Some (OS.File (OS.Database db) l)
         /\ Sqlite.execute db Sqlite.SELECT_urls 2 = Py.Return rows
         /\ temp_path b1
            = Some (copy_target Scenario.plugin_world
                                (Sample.abs ["data"; "History"]))
         /\ OS.stat (OS.fs w1)
                    (OS.resolve Scenario.plugin_world
                       (copy_target Scenario.plugin_world
                                    (Sample.abs ["data"; "History"])))
            = Some (OS.File (OS.Database db) false).
Proof.
  do 3 eexists. split; [reflexivity|].
  eapply query_history_reads_snapshot. reflexivity.
Defined.

(** Nothing called [History] is in [/tmp] before the read. *)
Lemma query_then_del_restores_witness :
  temp_path Scenario.chrome = None
  /\ OS.stat (OS.fs Scenario.plugin_world)
             (OS.resolve Scenario.plugin_world
                (copy_target Scenario.plugin_world
                             (Sample.abs ["data"; "History"])))
     = None
  /\ exists w2,
       Base.__del__
         (snd (Base.query_history (Sample.abs ["data"; "History"])
                 Sqlite.SELECT_urls 2
                 (Scenario.chrome, Scenario.plugin_world)))
       = (Py.Return tt,
          (fst (snd (Base.query_history (Sample.abs ["data"; "History"])
                       Sqlite.SELECT_urls 2
                       (Scenario.chrome, Scenario.plugin_world))), w2))
       /\ OS.fs w2 = OS.fs Scenario.plugin_world.
Proof.
  split; [reflexivity|]. split; [reflexivity|].
  apply query_then_del_restores; reflexivity.
Defined.

(** The scenario's history, whole. *)
Lemma history_most_recent_first_witness :
  exists items s',
    history 10 (Scenario.chrome, Scenario.plugin_world)
    = (Py.Return items, s')
    /\ map last_visit_time items
       = [13300000000000500; 13300000000000200; 13300000000000000]%Z
    /\ Sorted recent_first items.
Proof.
  do 2 eexists. split; [reflexivity|]. split; [reflexivity|].
  eapply history_most_recent_first
    with (b := Scenario.chrome) (w := Scenario.plugin_world) (n := 10%Z).
  reflexivity.
Defined.

Lemma history_chromium_entries_witness :
  isinstance Scenario.chrome [Chrome; Edge; Brave; Opera; Vivaldi; Arc]
  = true
  /\ exists items b1 w1,
       history 2 (Scenario.chrome, Scenario.plugin_world)
       = (Py.Return items, (b1, w1))
       /\ exists db l t,
            OS.stat (OS.fs Scenario.plugin_world)
                    (OS.resolve Scenario.plugin_world
                                (database_path Scenario.chrome))
            = Some (OS.File (OS.Database db) l)
            /\ Sqlite.urls db = Some t
            /\ ((0 <= 2)%Z ->
                Z.of_nat (List.length items)
                = Z.min 2 (Z.of_nat (List.length t)))
            /\ (forall i, In i items ->
                exists u,
                  In u t
                  /\ i = HistoryItem.__init__ b1 (Sqlite.url u)
                           (Sqlite.title u) (Sqlite.last_visit_time u)).
Proof.
  split; [reflexivity|]. do 3 eexists. split; [reflexivity|].
  eapply history_chromium_entries
    with (b := Scenario.chrome) (w := Scenario.plugin_world) (n := 2%Z);
    reflexivity.
Defined.


(** A Chrome adapter on a Gecko database: the copy is made, the query
    finds no table [urls]. *)
Lemma history_errors_witness :
  class_of Scenario.misdirected <> Base
  /\ exists e b1 w1,
       history 10 (Scenario.misdirected, Scenario.firefox_world)
       = (Py.Raise e, (b1, w1))
       /\ Py.exc_type e = Py.SqliteError
       /\ ((Py.caught_by [Py.OSError] e = true
            /\ b1 = Scenario.misdirected /\ w1 = Scenario.firefox_world)
           \/ (Py.exc_type e = Py.SqliteError
               /\ temp_path b1
                  = Some (copy_target Scenario.firefox_world
                            (database_path Scenario.misdirected))
               /\ exists c,
                    OS.stat (OS.fs w1)
                      (OS.resolve Scenario.firefox_world
                         (copy_target Scenario.firefox_world
                            (database_path Scenario.misdirected)))
                    = Some (OS.File c false))).
Proof.
  split; [discriminate|]. do 3 eexists. split; [reflexivity|].
  split; [reflexivity|].
  eapply history_errors
    with (b := Scenario.misdirected) (w := Scenario.firefox_world)
         (n := 10%Z);
    [discriminate|reflexivity].
Defined.




(** The icon of [example.com] is downloaded into the empty cache. *)
Lemma favicon_download_stored_witness :
  FaviconCache._get_domain "https://example.com/page" Scenario.plugin_world
  = (Py.Return (Some "example.com"), Scenario.plugin_world)
  /\ OS.network Scenario.plugin_world
       (FaviconCache.favicon_service "example.com") = Some Scenario.png
  /\ OS.is_dir (OS.fs Scenario.plugin_world)
       (OS.resolve Scenario.plugin_world (cache_dir Scenario.cache)) = true
  /\ exists w1,
       FaviconCache.get_favicon_path Scenario.cache
         "https://example.com/page" Scenario.plugin_world
       = (Py.Return
            (Some (Pathlib.as_posix
                     (FaviconCache.favicon_file Scenario.cache
                        "example.com"))), w1)
       /\ OS.stat (OS.fs w1)
            (OS.resolve w1
               (FaviconCache.favicon_file Scenario.cache "example.com"))
          = Some (OS.File (OS.Bytes Scenario.png) false)
       /\ OS.requests w1
          = FaviconCache.favicon_service "example.com"
            :: OS.requests Scenario.plugin_world
       /\ OS.log w1
          = (OS.INFO, "Downloaded favicon for example.com")
            :: OS.log Scenario.plugin_world.
Proof.
  do 3 (split; [reflexivity|]).
  eapply favicon_download_stored with
    (fc := Scenario.cache) (url := "https://example.com/page")
    (d := "example.com") (body := Scenario.png)
    (w := Scenario.plugin_world); reflexivity.
Defined.



(** No history file in the world of the cache scenario. *)
Lemma query_missing_database_witness :
  class_of (Main.browser Scenario.plugin) <> Base
  /\ OS.stat (OS.fs Scenario.cache_world)
       (OS.resolve Scenario.cache_world
          (database_path (Main.browser Scenario.plugin))) = None
  /\ Main._query "example" (Scenario.plugin, Scenario.cache_world)
     = (Py.Return (Main._results Scenario.plugin ++ [history_not_found]),
        (Main.mkBrowserHistory (Main.settings Scenario.plugin)
           (Main.default_browser Scenario.plugin)
           (Main.browser Scenario.plugin)
           (Main.favicon_cache Scenario.plugin)
           (Main._results Scenario.plugin ++ [history_not_found]),
         Scenario.cache_world)).
Proof.
  split; [discriminate|]. split; [reflexivity|].
  apply query_missing_database; [discriminate|reflexivity].
Defined.


(** The records of the search for "example". *)
Lemma query_records_presentable_witness :
  exists items bh2 w2,
    Main._query "example" (Scenario.plugin, Scenario.plugin_world)
    = (Py.Return items, (bh2, w2))
    /\ List.length items = 2%nat
    /\ exists found,
         items = Main._results Scenario.plugin ++ found
         /\ Main._results bh2 = items
         /\ (found = [history_not_found]
             \/ Forall (presents_icon (Main.favicon_cache Scenario.plugin) w2)
                       found).
Proof.
  assert (Hq : exists items bh2 w2,
            Main._query "example" (Scenario.plugin, Scenario.plugin_world)
            = (Py.Return items, (bh2, w2))
            /\ List.length items = 2%nat)
    by (vm_compute; do 3 eexists; split; reflexivity).
  destruct Hq as (items & bh2 & w2 & Hq & Hlen).
  exists items, bh2, w2. split; [exact Hq|]. split; [exact Hlen|].
  eapply query_records_presentable, Hq.
Defined.


(** The latest entry of the scenario's Chrome history has no calendar
    time. *)
Lemma history_entries_timestamp_witness :
  exists items b1 w1 item,
    history 2 (Scenario.chrome, Scenario.plugin_world)
    = (Py.Return items, (b1, w1))
    /\ In item items
    /\ url item = "https://www.rocq-prover.org/"
    /\ browser item = b1
    /\ class_of b1 = class_of Scenario.chrome
    /\ (isinstance Scenario.chrome
          [Chrome; Edge; Brave; Opera; Vivaldi; Arc] = true ->
        exists msg,
          HistoryItem.timestamp item Scenario.plugin_world
          = (Py.Raise (Py.mkExc Py.TypeError msg), Scenario.plugin_world))
    /\ (isinstance Scenario.chrome [Firefox; Zen] = true ->
        HistoryItem.timestamp item Scenario.plugin_world
        = (fromtimestamp (truediv (last_visit_time item) 1000000),
           Scenario.plugin_world)).
Proof.
  do 4 eexists. split; [reflexivity|]. split; [left; reflexivity|].
  split; [reflexivity|].
  eapply history_entries_timestamp with
    (b := Scenario.chrome) (w := Scenario.plugin_world) (n := 2%Z);
    [reflexivity|left; reflexivity].
Defined.

(** The plugin configured for "Edge". *)
Lemma main_init_chromium_witness :
  In (lower "Edge") ["chrome"; "edge"; "brave"; "opera"; "vivaldi"; "arc"]
  /\ match Main.__init__ [("default_browser", "Edge")]
                         Scenario.plugin_world with
     | (Py.Return bh, w') =>
         Sample.lower (class_name (class_of (Main.browser bh)))
         = lower "Edge"
         /\ temp_path (Main.browser bh) = None
         /\ Main.settings bh = [("default_browser", "Edge")]
         /\ Main._results bh = []
         /\ cache_dir (Main.favicon_cache bh)
            = Sample.abs ["plugins"; "history"; "favicons"]
         /\ OS.is_dir (OS.fs w')
              (OS.resolve w' (Sample.abs ["plugins"; "history"; "favicons"]))
            = true
         /\ (forall k,
               k <> OS.resolve Scenario.plugin_world
                      (Sample.abs ["plugins"; "history"; "favicons"]) ->
               OS.stat (OS.fs w') k = OS.stat (OS.fs Scenario.plugin_world) k)
     | (Py.Raise e, w') =>
         w' = Scenario.plugin_world
         /\ Py.caught_by [Py.OSError] e = true
         /\ OS.is_dir (OS.fs Scenario.plugin_world)
              (OS.resolve Scenario.plugin_world
                 (Sample.abs ["plugins"; "history"; "favicons"])) = false
     end.
Proof.
  split; [simpl; auto|].
  apply (main_init_chromium [("default_browser", "Edge")]
           Scenario.plugin_world).
  simpl. auto.
Defined.
